(** * heatapp: the hub and radiator client of [heatapp/heatapp.py]

    A shallow embedding of [HeatappHub] and [HeatappRadiator] together with
    the pieces of the Python runtime they call ([bytes.decode], [str.rstrip],
    [str.split], [int], true division, [datetime.datetime]), followed by the
    properties of the protocol client.

    The UDP socket is explicit state: every method is a function from the
    socket to a result (a value or a raised exception) and the socket after
    the call. *)

From Stdlib Require Import ZArith NArith List Bool Lia String Ascii.
From Stdlib Require Import Strings.Byte SpecFloat DecimalString DecimalZ.
Import ListNotations.

(* ================================================================== *)
(** * The Python runtime, as far as the client uses it *)
(* ================================================================== *)

Module Py.

(** Exceptions that can leave the client.  [socket.timeout] does not occur
    here: the only place that can see it, [send_command], catches it. *)
Inductive exn : Set :=
| IndexError
| ValueError
| OverflowError
| ZeroDivisionError
| UnicodeDecodeError
| UnicodeEncodeError
| ConnectionError.

Inductive result (A : Type) : Type :=
| Ok (a : A)
| Raise (e : exn).
Arguments Ok {A} a.
Arguments Raise {A} e.

Definition rbind {A B} (r : result A) (k : A -> result B) : result B :=
  match r with
  | Ok a => k a
  | Raise e => Raise e
  end.

Definition raises {A} (r : result A) : bool :=
  match r with Ok _ => false | Raise _ => true end.

(** A [str] is a sequence of code points, a [bytes] a sequence of bytes. *)
Definition str := list N.
Definition bytes := list byte.

(** A literal of the source, written as a Rocq string of ASCII characters. *)
Definition lit (s : string) : str := map N_of_ascii (list_ascii_of_string s).

Definition str_eqb (a b : str) : bool :=
  if list_eq_dec N.eq_dec a b then true else false.

Definition is_ascii (s : str) : bool := forallb (fun c => c <? 128)%N s.

(** ** [l[i]] for a non-negative index, [l.index(x)] *)

Definition getitem {A} (l : list A) (i : nat) : result A :=
  match nth_error l i with
  | Some x => Ok x
  | None => Raise IndexError
  end.

Fixpoint index (x : Z) (l : list Z) : result nat :=
  match l with
  | [] => Raise ValueError
  | y :: l' =>
      if (y =? x)%Z then Ok O
      else match index x l' with
           | Ok i => Ok (S i)
           | Raise e => Raise e
           end
  end.

(** [range(lo, hi)] *)
Definition range (lo hi : Z) : list Z :=
  map (fun k => (lo + Z.of_nat k)%Z) (seq 0 (Z.to_nat (hi - lo))).

(** ** [str.split(sep)] for a one-character separator, [str.rstrip(chars)] *)

Fixpoint split (sep : N) (s : str) : list str :=
  match s with
  | [] => [[]]
  | c :: s' =>
      if (c =? sep)%N then [] :: split sep s'
      else match split sep s' with
           | f :: fs => (c :: f) :: fs
           | [] => [[c]]
           end
  end.

Definition mem (c : N) (chars : str) : bool := existsb (N.eqb c) chars.

Fixpoint rstrip (chars : str) (s : str) : str :=
  match s with
  | [] => []
  | c :: s' =>
      match rstrip chars s' with
      | [] => if mem c chars then [] else [c]
      | t => c :: t
      end
  end.

(** ** UTF-8: [bytes.decode()] and [str.encode()], both strict *)

Definition is_cont (b : N) : bool := ((128 <=? b) && (b <=? 191))%N.

(** The six payload bits of a continuation byte. *)
Definition cont (b : N) : N := (b - 128)%N.

Fixpoint utf8_decode (bs : list N) : option str :=
  match bs with
  | [] => Some []
  | b0 :: t0 =>
      if (b0 <? 128)%N then option_map (cons b0) (utf8_decode t0)
      else if ((194 <=? b0) && (b0 <=? 223))%N then
        match t0 with
        | b1 :: t1 =>
            if is_cont b1
            then option_map (cons ((b0 - 192) * 64 + cont b1)%N) (utf8_decode t1)
            else None
        | _ => None
        end
      else if ((224 <=? b0) && (b0 <=? 239))%N then
        match t0 with
        | b1 :: b2 :: t2 =>
            if is_cont b1 && is_cont b2
               && (if (b0 =? 224)%N then (160 <=? b1)%N else true)
               && (if (b0 =? 237)%N then (b1 <=? 159)%N else true)
            then option_map
                   (cons ((b0 - 224) * 4096 + cont b1 * 64 + cont b2)%N)
                   (utf8_decode t2)
            else None
        | _ => None
        end
      else if ((240 <=? b0) && (b0 <=? 244))%N then
        match t0 with
        | b1 :: b2 :: b3 :: t3 =>
            if is_cont b1 && is_cont b2 && is_cont b3
               && (if (b0 =? 240)%N then (144 <=? b1)%N else true)
               && (if (b0 =? 244)%N then (b1 <=? 143)%N else true)
            then option_map
                   (cons ((b0 - 240) * 262144 + cont b1 * 4096
                          + cont b2 * 64 + cont b3)%N)
                   (utf8_decode t3)
            else None
        | _ => None
        end
      else None
  end.

Definition decode (data : bytes) : result str :=
  match utf8_decode (map Byte.to_N data) with
  | Some s => Ok s
  | None => Raise UnicodeDecodeError
  end.

Definition byte_of (n : N) : byte :=
  match Byte.of_N n with
  | Some b => b
  | None => x00
  end.

Definition utf8_encode_char (c : N) : option (list N) :=
  if (c <? 128)%N then Some [c]
  else if (c <? 2048)%N then Some [192 + c / 64; 128 + c mod 64]%N
  else if ((55296 <=? c) && (c <=? 57343))%N then None
  else if (c <? 65536)%N
       then Some [224 + c / 4096; 128 + (c / 64) mod 64; 128 + c mod 64]%N
  else if (c <? 1114112)%N
       then Some [240 + c / 262144; 128 + (c / 4096) mod 64;
                  128 + (c / 64) mod 64; 128 + c mod 64]%N
  else None.

Fixpoint utf8_encode (s : str) : option (list N) :=
  match s with
  | [] => Some []
  | c :: s' =>
      match utf8_encode_char c, utf8_encode s' with
      | Some bs, Some rest => Some (bs ++ rest)
      | _, _ => None
      end
  end.

Definition encode (s : str) : result bytes :=
  match utf8_encode s with
  | Some ns => Ok (map byte_of ns)
  | None => Raise UnicodeEncodeError
  end.

(** ** [str(n)] for an [int], as an f-string interpolates it *)

Definition str_of_int (z : Z) : str := lit (NilZero.string_of_int (Z.to_int z)).

(** ** [int(s)] for a [str]

    CPython first rewrites the text
    ([_PyUnicode_TransformDecimalAndSpaceToASCII]) and then parses it in base
    10 ([PyLong_FromString]).  The rewriting consults the Unicode character
    database for code points from 127 on; the database is not part of the
    client, so it is a parameter.  The interpreter's limit on the number of
    digits (4300 by default) is beyond any text of the client, which comes
    out of a datagram of at most 1024 bytes. *)

Class UnicodeData : Type := {
  Py_UNICODE_ISSPACE : N -> bool;
  Py_UNICODE_TODECIMAL : N -> option N
}.

(** The database that knows no space and no digit beyond ASCII.  On ASCII
    text every database gives the same [int] (see [int_ascii_any_database]). *)
Definition ascii_only : UnicodeData :=
  {| Py_UNICODE_ISSPACE := fun _ => false;
     Py_UNICODE_TODECIMAL := fun _ => None |}.

Section Int.
Context {ucd : UnicodeData}.

(** The loop of the rewriting: a code point that is neither a space nor a
    decimal digit becomes ['?'] and ends the output. *)
Fixpoint transform_loop (s : str) : str :=
  match s with
  | [] => []
  | ch :: s' =>
      if (ch <? 127)%N then ch :: transform_loop s'
      else if Py_UNICODE_ISSPACE ch then 32%N :: transform_loop s'
      else match Py_UNICODE_TODECIMAL ch with
           | Some d => (48 + d)%N :: transform_loop s'
           | None => [63%N]
           end
  end.

Definition transform (s : str) : str :=
  if is_ascii s then s else transform_loop s.

End Int.

Definition Py_ISSPACE (c : N) : bool :=
  ((c =? 32) || ((9 <=? c) && (c <=? 13)))%N.

Definition digit_value (c : N) : option Z :=
  if ((48 <=? c) && (c <=? 57))%N then Some (Z.of_N (c - 48)) else None.

Fixpoint skip_space (s : str) : str :=
  match s with
  | c :: s' => if Py_ISSPACE c then skip_space s' else s
  | [] => []
  end.

(** Digits with single underscores between them: the value read and the
    text left, or [None] for a doubled or trailing underscore. *)
Fixpoint scan (s : str) (prev_underscore : bool) (acc : Z) : option (Z * str) :=
  match s with
  | c :: s' =>
      if (c =? 95)%N
      then if prev_underscore then None else scan s' true acc
      else match digit_value c with
           | Some d => scan s' false (10 * acc + d)%Z
           | None => if prev_underscore then None else Some (acc, s)
           end
  | [] => if prev_underscore then None else Some (acc, [])
  end.

(** [PyLong_FromString] in base 10, on text that has to be consumed whole:
    spaces, a sign, digits, spaces. *)
Definition PyLong_FromString (s : str) : option Z :=
  let s1 := skip_space s in
  let '(negative, s2) :=
    match s1 with
    | 43%N :: t => (false, t)
    | 45%N :: t => (true, t)
    | _ => (false, s1)
    end in
  match s2 with
  | [] => None
  | c :: _ =>
      match digit_value c with
      | None => None
      | Some _ =>
          match scan s2 false 0%Z with
          | Some (v, rest) =>
              match skip_space rest with
              | [] => Some (if negative then (- v)%Z else v)
              | _ :: _ => None
              end
          | None => None
          end
      end
  end.

Definition int {ucd : UnicodeData} (s : str) : result Z :=
  match PyLong_FromString (transform s) with
  | Some z => Ok z
  | None => Raise ValueError
  end.

(** ** [float]: IEEE 754 binary64 *)

Definition float := spec_float.
Definition prec : Z := 53.
Definition emax : Z := 1024.

Definition fadd : float -> float -> float := SFadd prec emax.
Definition fmul : float -> float -> float := SFmul prec emax.

Definition fdiv : float -> float -> float := SFdiv prec emax.

(** The float nearest to an [int], ties to even. *)
Definition nearest_float (z : Z) : float := binary_normalize prec emax z 0 false.

(** [float(n)] for an [int]: too large an [int] raises. *)
Definition float_of_int (z : Z) : result float :=
  match nearest_float z with
  | S754_infinity _ => Raise OverflowError
  | f => Ok f
  end.

(** [a / b] on two [int]s.  When both fit the 53 bits of a float they are
    converted, exactly, and divided as floats; otherwise the quotient of the
    integers is computed to more than 53 bits and rounded once, and a
    quotient too large for a float raises. *)
Definition int_truediv (a b : Z) : result float :=
  if (b =? 0)%Z then Raise ZeroDivisionError
  else if (a =? 0)%Z then Ok (S754_zero (b <? 0)%Z)
  else if ((Z.abs a <? 2 ^ 53) && (Z.abs b <? 2 ^ 53))%Z
  then Ok (fdiv (nearest_float a) (nearest_float b))
  else
    let negative := xorb (a <? 0)%Z (b <? 0)%Z in
    let s := Z.max 0 (Z.log2 (Z.abs b) + 55 - Z.log2 (Z.abs a)) in
    let '(q, r) := Z.div_eucl (Z.shiftl (Z.abs a) s) (Z.abs b) in
    match binary_round_aux prec emax negative q (- s)
            (new_location (Z.abs b) r) with
    | S754_infinity _ => Raise OverflowError
    | f => Ok f
    end.

(** [n * x] for an [int] and a [float]: the [int] is converted first. *)
Definition int_mul_float (n : Z) (x : float) : result float :=
  rbind (float_of_int n) (fun f => Ok (fmul f x)).

(** ** [datetime.datetime(year, month, day, hour, minute, second)] *)

Record datetime : Set := mk_datetime {
  year : Z; month : Z; day : Z; hour : Z; minute : Z; second : Z
}.

Definition is_leap (y : Z) : bool :=
  ((y mod 4 =? 0) && (negb (y mod 100 =? 0) || (y mod 400 =? 0)))%Z.

Definition days_in_month (y m : Z) : Z :=
  if (m =? 2)%Z then (if is_leap y then 29 else 28)%Z
  else if ((m =? 4) || (m =? 6) || (m =? 9) || (m =? 11))%Z then 30%Z
  else 31%Z.

(** The arguments are read as C [int]s. *)
Definition c_int (z : Z) : bool := ((- 2 ^ 31 <=? z) && (z <? 2 ^ 31))%Z.

Definition between (lo x hi : Z) : bool := ((lo <=? x) && (x <=? hi))%Z.

Definition datetime_new (y mo d h mi s : Z) : result datetime :=
  if negb (forallb c_int [y; mo; d; h; mi; s]) then Raise OverflowError
  else if between 1 y 9999 && between 1 mo 12
          && between 1 d (days_in_month y mo)
          && between 0 h 23 && between 0 mi 59 && between 0 s 59
  then Ok (mk_datetime y mo d h mi s)
  else Raise ValueError.

End Py.

Import Py.

(* ================================================================== *)
(** * The datagram socket *)
(* ================================================================== *)

(** What one [recvfrom] finds: a datagram, or nothing within the 20 seconds
    set by [settimeout].  These are the two outcomes [send_command] tells
    apart; other errors of the network stack are not modelled. *)
Inductive outcome : Set :=
| Reply (data : bytes)
| TimedOut.

Definition Address : Set := (str * Z)%type.

(** The socket, seen from the client: what the network will deliver to the
    coming [recvfrom] calls, one entry per call (nothing more arrives once
    the list is used up), and the datagrams handed to [sendto] so far, oldest
    first. *)
Record Socket : Set := mk_socket {
  incoming : list outcome;
  sent : list (bytes * Address)
}.

Definition sendto (payload : bytes) (address : Address) (sock : Socket) : Socket :=
  {| incoming := incoming sock; sent := sent sock ++ [(payload, address)] |}.

(** [recvfrom(bufsize)]: the first [bufsize] bytes of the datagram, or [None]
    for [socket.timeout]. *)
Definition recvfrom (bufsize : nat) (sock : Socket) : option bytes * Socket :=
  match incoming sock with
  | Reply data :: rest =>
      (Some (firstn bufsize data), {| incoming := rest; sent := sent sock |})
  | TimedOut :: rest => (None, {| incoming := rest; sent := sent sock |})
  | [] => (None, sock)
  end.

(** Methods: the socket goes in and comes out; an exception ends the method
    and leaves the socket as it was when it was raised. *)
Definition M (A : Type) : Type := Socket -> result A * Socket.

Definition ret {A} (a : A) : M A := fun sock => (Ok a, sock).

Definition lift {A} (r : result A) : M A := fun sock => (r, sock).

Definition bind {A B} (m : M A) (k : A -> M B) : M B :=
  fun sock =>
    match m sock with
    | (Ok a, sock') => k a sock'
    | (Raise e, sock') => (Raise e, sock')
    end.

Notation "x <- m ;; k" := (bind m (fun x => k))
  (at level 61, m at next level, right associativity).

(** [[f(x) for x in l]] for an [f] that may raise. *)
Fixpoint comprehension {A B} (f : A -> result B) (l : list A) : result (list B) :=
  match l with
  | [] => Ok []
  | x :: l' =>
      rbind (f x) (fun y => rbind (comprehension f l') (fun ys => Ok (y :: ys)))
  end.

Definition comma : N := 44.

(* ================================================================== *)
(** * class HeatappHub *)
(* ================================================================== *)

Module HeatappHub.

Record Hub : Set := mk_hub {
  _host : str;
  _port : Z;
  firmware : str;
  device_id : str;
  idu : str;
  radiator_ids : list Z;
  radiators_per_zone : list Z
}.

Definition address (hub : Hub) : Address := (_host hub, _port hub).

Record FwInfo : Set := mk_fw { fw_firmware : str; fw_device_id : str; fw_idu : str }.

Record NwInfo : Set := mk_nw { nw_ip : str; nw_gateway : str; nw_subnet : str }.

(** [send_command].  [self] is the address the constructor stored, which is
    all the method reads besides the socket and the lock.  The lock orders
    concurrent callers; a single caller always finds it free. *)
Definition send_command (self : Address) (command : str) : M str :=
  fun sock =>
    match encode command with
    | Raise e => (Raise e, sock)
    | Ok payload =>
        match recvfrom 1024 (sendto payload self sock) with
        | (Some data, sock') =>
            match decode data with
            | Ok text => (Ok (rstrip [25%N] (rstrip [0%N] text)), sock')
            | Raise e => (Raise e, sock')
            end
        | (None, sock') => (Ok (lit "TIMEOUT"), sock')
        end
    end.

Section Methods.
Context {ucd : UnicodeData}.

Definition __get_radiator_ids (self : Address) : M (list Z) :=
  let command := lit "OPS2/" in
  text <- send_command self command ;;
  let response := split comma text in
  r0 <- lift (getitem response 0) ;;
  if str_eqb r0 (lit "OPOK")
  then lift (comprehension int (skipn 2 response))
  else ret [].

Definition __get_radiators_per_zone (self : Address) : M (list Z) :=
  let command := lit "OPS3/" in
  text <- send_command self command ;;
  let response := split comma text in
  r0 <- lift (getitem response 0) ;;
  if str_eqb r0 (lit "OPOK")
  then lift (comprehension int (skipn 2 response))
  else ret [].

Definition ready (self : Address) : M bool :=
  let command := lit "OPS1/" in
  text <- send_command self command ;;
  let response := split comma text in
  r0 <- lift (getitem response 0) ;;
  if str_eqb r0 (lit "OPOK") then ret true else ret false.

Definition get_fw (self : Address) : M (option FwInfo) :=
  let command := lit "OPF/" in
  text <- send_command self command ;;
  let r := split comma text in
  r0 <- lift (getitem r 0) ;;
  if str_eqb r0 (lit "OPOK")
  then
    r1 <- lift (getitem r 1) ;;
    r2 <- lift (getitem r 2) ;;
    r3 <- lift (getitem r 3) ;;
    ret (Some {| fw_firmware := r1;
                 fw_device_id := r2 ++ lit "/" ++ r3;
                 fw_idu := r3 |})
  else ret None.

(** [f"{r[i]}.{r[i+1]}.{r[i+2]}.{r[i+3]}"] *)
Definition dotted (r : list str) (i : nat) : result str :=
  rbind (getitem r i) (fun a =>
  rbind (getitem r (i + 1)) (fun b =>
  rbind (getitem r (i + 2)) (fun c =>
  rbind (getitem r (i + 3)) (fun d =>
  Ok (a ++ lit "." ++ b ++ lit "." ++ c ++ lit "." ++ d))))).

Definition get_nw (self : Address) : M (option NwInfo) :=
  let command := lit "OPS38/" in
  text <- send_command self command ;;
  let r := split comma text in
  r0 <- lift (getitem r 0) ;;
  if str_eqb r0 (lit "OPOK")
  then
    ip <- lift (dotted r 2) ;;
    gateway <- lift (dotted r 6) ;;
    subnet <- lift (dotted r 10) ;;
    ret (Some {| nw_ip := ip; nw_gateway := gateway; nw_subnet := subnet |})
  else ret None.

Definition get_time (self : Address) : M (option datetime) :=
  let command := lit "OPH/" in
  text <- send_command self command ;;
  let r := split comma text in
  r0 <- lift (getitem r 0) ;;
  if str_eqb r0 (lit "OPOK")
  then
    d <- lift (comprehension int (skipn 1 r)) ;;
    d6 <- lift (getitem d 6) ;;
    d5 <- lift (getitem d 5) ;;
    d4 <- lift (getitem d 4) ;;
    d0 <- lift (getitem d 0) ;;
    d1 <- lift (getitem d 1) ;;
    d2 <- lift (getitem d 2) ;;
    t <- lift (datetime_new (2000 + d6) d5 d4 d0 d1 d2) ;;
    ret (Some t)
  else ret None.

(** [HeatappHub(host, port)], on the socket the constructor has just made. *)
Definition __init__ (host : str) (port : Z) : M Hub :=
  let self := (host, port) in
  fw <- get_fw self ;;
  match fw with
  | None => lift (Raise ConnectionError)
  | Some fw =>
      ids <- __get_radiator_ids self ;;
      per_zone <- __get_radiators_per_zone self ;;
      ret {| _host := host; _port := port;
             firmware := fw_firmware fw;
             device_id := fw_device_id fw;
             idu := fw_idu fw;
             radiator_ids := ids;
             radiators_per_zone := per_zone |}
  end.

End Methods.
End HeatappHub.

(* ================================================================== *)
(** * class HeatappRadiator *)
(* ================================================================== *)

Module HeatappRadiator.
Import HeatappHub.

Record Radiator : Set := mk_radiator {
  rad_id : Z;
  _hub : Hub;
  firmware : option str;
  serial : option str;
  power : Z
}.

Record Temperature : Set := mk_temperature { current : Z; target : Z }.

(** [R#{rad_id}#{i}#0#0*?{field}/] and [D#{rad_id}#{i}#0#0*T{target}/] *)
Definition read_command (rad_id i : Z) (field : string) : str :=
  lit "R#" ++ str_of_int rad_id ++ lit "#" ++ str_of_int i
    ++ lit "#0#0*?" ++ lit field ++ lit "/".

Definition write_command (rad_id i target : Z) : str :=
  lit "D#" ++ str_of_int rad_id ++ lit "#" ++ str_of_int i
    ++ lit "#0#0*T" ++ str_of_int target ++ lit "/".

(** [hub.radiators_per_zone[hub.radiator_ids.index(rad_id)]] *)
Definition rad_count (hub : Hub) (rad_id : Z) : result Z :=
  rbind (index rad_id (radiator_ids hub)) (fun i =>
  getitem (radiators_per_zone hub) i).

Section Methods.
Context {ucd : UnicodeData}.

Definition __get_fw (hub : Hub) (rad_id : Z) : M (option str * option str) :=
  let command := read_command rad_id 1 "F" in
  text <- send_command (address hub) command ;;
  let r := split comma text in
  r0 <- lift (getitem r 0) ;;
  if str_eqb r0 (lit "OK")
  then
    r1 <- lift (getitem r 1) ;;
    r2 <- lift (getitem r 2) ;;
    ret (Some r1, Some r2)
  else ret (None, None).

(** The body of the loop of [__get_power], over the units still to visit. *)
Fixpoint __get_power_loop (hub : Hub) (rad_id : Z) (units : list Z) (total : Z)
  : M Z :=
  match units with
  | [] => ret total
  | i :: units' =>
      let command := read_command rad_id i "UD" in
      text <- send_command (address hub) command ;;
      let r := split comma text in
      r0 <- lift (getitem r 0) ;;
      if str_eqb r0 (lit "OK")
      then
        r1 <- lift (getitem r 1) ;;
        w <- lift (int r1) ;;
        __get_power_loop hub rad_id units' (total + w)
      else __get_power_loop hub rad_id units' total
  end.

Definition __get_power (hub : Hub) (rad_id : Z) : M Z :=
  n <- lift (rad_count hub rad_id) ;;
  __get_power_loop hub rad_id (range 1 (n + 1)) 0.

(** [HeatappRadiator(hub, rad_id)] *)
Definition __init__ (hub : Hub) (rad_id : Z) : M Radiator :=
  fw <- __get_fw hub rad_id ;;
  p <- __get_power hub rad_id ;;
  ret {| rad_id := rad_id; _hub := hub;
         firmware := fst fw; serial := snd fw; power := p |}.

Definition get_temperature (self : Radiator) : M (option Temperature) :=
  let command := read_command (rad_id self) 1 "T" in
  text <- send_command (address (_hub self)) command ;;
  let r := split comma text in
  r0 <- lift (getitem r 0) ;;
  if str_eqb r0 (lit "OK")
  then
    r1 <- lift (getitem r 1) ;;
    c <- lift (int r1) ;;
    r2 <- lift (getitem r 2) ;;
    t <- lift (int r2) ;;
    ret (Some {| current := c; target := t |})
  else ret None.

End Methods.

(** The loop of [set_temperature]: [okay] is assigned in either branch. *)
Fixpoint set_temperature_loop (self : Radiator) (target : Z) (units : list Z)
  (okay : bool) : M bool :=
  match units with
  | [] => ret okay
  | i :: units' =>
      let command := write_command (rad_id self) i target in
      text <- send_command (address (_hub self)) command ;;
      let r := split comma text in
      r0 <- lift (getitem r 0) ;;
      if str_eqb r0 (lit "OK")
      then set_temperature_loop self target units' true
      else set_temperature_loop self target units' false
  end.

(** [target] is an [int], as the interface of the client has it. *)
Definition set_temperature (self : Radiator) (target : Z) : M bool :=
  n <- lift (rad_count (_hub self) (rad_id self)) ;;
  set_temperature_loop self target (range 1 (n + 1)) false.

Section Energy.
Context {ucd : UnicodeData}.

(** One unit's share: [float(int(r[2]) * (int(r[1]) / 10000))]. *)
Definition unit_energy (r : list str) : result float :=
  rbind (getitem r 1) (fun r1 =>
  rbind (int r1) (fun m =>
  rbind (int_truediv m 10000) (fun multiplier =>
  rbind (getitem r 2) (fun r2 =>
  rbind (int r2) (fun raw =>
  int_mul_float raw multiplier))))).

Fixpoint get_energy_usage_loop (self : Radiator) (units : list Z)
  (total : float) (okay : bool) : M (float * bool) :=
  match units with
  | [] => ret (total, okay)
  | i :: units' =>
      let command := read_command (rad_id self) i "UD" in
      text <- send_command (address (_hub self)) command ;;
      let r := split comma text in
      r0 <- lift (getitem r 0) ;;
      if str_eqb r0 (lit "OK")
      then
        e <- lift (unit_energy r) ;;
        get_energy_usage_loop self units' (fadd total e) true
      else get_energy_usage_loop self units' total false
  end.

Definition get_energy_usage (self : Radiator) : M (option float) :=
  n <- lift (rad_count (_hub self) (rad_id self)) ;;
  res <- get_energy_usage_loop self (range 1 (n + 1)) (S754_zero false) false ;;
  if snd res then ret (Some (fst res)) else ret None.

End Energy.
End HeatappRadiator.

(* ================================================================== *)
(** * Vocabulary of the statements *)
(* ================================================================== *)

Import HeatappHub HeatappRadiator.

(** The status token of a response: its first comma-separated field. *)
Definition status (text : str) : str := hd [] (split comma text).

(** What the next [recvfrom] will find. *)
Definition next_outcome (sock : Socket) : outcome :=
  match incoming sock with
  | o :: _ => o
  | [] => TimedOut
  end.

(** What the next [k] calls of [recvfrom] will find. *)
Fixpoint upcoming (k : nat) (l : list outcome) : list outcome :=
  match k with
  | O => []
  | S k' =>
      match l with
      | o :: l' => o :: upcoming k' l'
      | [] => TimedOut :: upcoming k' []
      end
  end.

(** The text [send_command] makes of an outcome. *)
Definition answer (o : outcome) : result str :=
  match o with
  | TimedOut => Ok (lit "TIMEOUT")
  | Reply data =>
      rbind (decode (firstn 1024 data))
            (fun text => Ok (rstrip [25%N] (rstrip [0%N] text)))
  end.

(** The bytes of an ASCII text. *)
Definition wire (s : str) : bytes := map byte_of s.

(** The socket after one exchange. *)
Definition exchanged (payload : bytes) (self : Address) (sock : Socket) : Socket :=
  {| incoming := tl (incoming sock); sent := sent sock ++ [(payload, self)] |}.

(** The socket after [k] exchanges carrying [payloads]. *)
Definition exchanged_all (payloads : list bytes) (self : Address) (sock : Socket)
  : Socket :=
  {| incoming := skipn (List.length payloads) (incoming sock);
     sent := sent sock ++ map (fun p => (p, self)) payloads |}.

(** A hub-level response that is not accepted: any text whose status token is
    not [OPOK], the [TIMEOUT] of a silent hub among them. *)
Definition rejected (o : outcome) : Prop :=
  exists text, answer o = Ok text /\ status text <> lit "OPOK".

(** A socket on which nothing ever arrives. *)
Definition silent (sock : Socket) : Prop := Forall (eq TimedOut) (incoming sock).

(** The text ends in the character [c]. *)
Fixpoint ends_in (c : N) (s : str) : bool :=
  match s with
  | [] => false
  | x :: s' =>
      match s' with
      | [] => (x =? c)%N
      | _ :: _ => ends_in c s'
      end
  end.

Section Vocabulary.
Context {ucd : UnicodeData}.

(** What the hub's methods make of the text of their exchange. *)
Definition topology_of (text : str) : result (list Z) :=
  if str_eqb (status text) (lit "OPOK")
  then comprehension int (skipn 2 (split comma text))
  else Ok [].

Definition fw_of (text : str) : result (option FwInfo) :=
  let r := split comma text in
  if str_eqb (status text) (lit "OPOK")
  then
    rbind (getitem r 1) (fun r1 =>
    rbind (getitem r 2) (fun r2 =>
    rbind (getitem r 3) (fun r3 =>
    Ok (Some {| fw_firmware := r1;
                fw_device_id := r2 ++ lit "/" ++ r3;
                fw_idu := r3 |}))))
  else Ok None.

(** The number of entries a topology text yields. *)
Definition topology_count (text : str) : nat :=
  if str_eqb (status text) (lit "OPOK")
  then List.length (skipn 2 (split comma text))
  else 0.

(** The hub the constructor builds. *)
Definition hub_of (host : str) (port : Z) (fw : FwInfo) (ids per_zone : list Z)
  : Hub :=
  {| _host := host; _port := port;
     HeatappHub.firmware := fw_firmware fw;
     device_id := fw_device_id fw;
     idu := fw_idu fw;
     radiator_ids := ids;
     radiators_per_zone := per_zone |}.

(** What the radiator's [__get_fw] makes of the text of its exchange. *)
Definition radiator_fw_of (text : str) : result (option str * option str) :=
  let r := split comma text in
  if str_eqb (status text) (lit "OK")
  then rbind (getitem r 1) (fun r1 =>
       rbind (getitem r 2) (fun r2 => Ok (Some r1, Some r2)))
  else Ok (None, None).

(** The datagram of a read of unit [i], as [sendto] receives it. *)
Definition read_datagram (hub : Hub) (rad_id : Z) (field : string) (i : Z)
  : bytes * Address :=
  (wire (read_command rad_id i field), address hub).




End Vocabulary.

(** ** Inputs of the examples *)

Definition datagram (s : string) : outcome := Reply (wire (lit s)).

Definition fresh (l : list outcome) : Socket := {| incoming := l; sent := [] |}.

Definition hub_address : Address := (lit "192.168.1.20", 3000%Z).

(** A hub with zone 5 of one unit and zone 7 of two units. *)
Definition zone_hub : Hub :=
  {| _host := lit "192.168.1.20"; _port := 3000;
     HeatappHub.firmware := lit "1.2";
     device_id := lit "site/idu";
     idu := lit "idu";
     radiator_ids := [5; 7]%Z;
     radiators_per_zone := [1; 2]%Z |}.

Definition zone7 : Radiator :=
  {| rad_id := 7; _hub := zone_hub;
     HeatappRadiator.firmware := None; serial := None; power := 0 |}.

(** A radiator for zone 9, which [zone_hub] does not have. *)
Definition zone9 : Radiator :=
  {| rad_id := 9; _hub := zone_hub;
     HeatappRadiator.firmware := None; serial := None; power := 0 |}.

(** A hub whose only zone has a unit count of zero, and that zone. *)
Definition empty_zone_hub : Hub :=
  {| _host := lit "192.168.1.20"; _port := 3000;
     HeatappHub.firmware := lit "1.2";
     device_id := lit "site/idu";
     idu := lit "idu";
     radiator_ids := [5]%Z;
     radiators_per_zone := [0]%Z |}.

Definition empty_zone : Radiator :=
  {| rad_id := 5; _hub := empty_zone_hub;
     HeatappRadiator.firmware := None; serial := None; power := 0 |}.

(** ** Texts and datagrams of the round trips *)

(** The value of a run of digits, read from the left onto [acc]. *)
Fixpoint uint_value (d : Decimal.uint) (acc : Z) : Z :=
  match d with
  | Decimal.Nil => acc
  | Decimal.D0 d => uint_value d (10 * acc + 0)
  | Decimal.D1 d => uint_value d (10 * acc + 1)
  | Decimal.D2 d => uint_value d (10 * acc + 2)
  | Decimal.D3 d => uint_value d (10 * acc + 3)
  | Decimal.D4 d => uint_value d (10 * acc + 4)
  | Decimal.D5 d => uint_value d (10 * acc + 5)
  | Decimal.D6 d => uint_value d (10 * acc + 6)
  | Decimal.D7 d => uint_value d (10 * acc + 7)
  | Decimal.D8 d => uint_value d (10 * acc + 8)
  | Decimal.D9 d => uint_value d (10 * acc + 9)
  end%Z.

(** The characters [str(n)] is made of: a minus sign and digits. *)
Definition sign_or_digit (c : N) : bool :=
  ((c =? 45) || ((48 <=? c) && (c <=? 57)))%N.

(** [sep.join(fields)] *)
Fixpoint join (sep : N) (fields : list str) : str :=
  match fields with
  | [] => []
  | f :: fs =>
      match fs with
      | [] => f
      | _ :: _ => f ++ sep :: join sep fs
      end
  end.

(** A field as the hub sends it: ASCII without a comma and without the two
    padding characters. *)
Definition clean (f : str) : bool :=
  is_ascii f && negb (mem comma f) && negb (mem 0%N f) && negb (mem 25%N f).

(** The datagram that carries [fields], joined by commas and padded with [a]
    bytes [0x19] and then [b] bytes [0x00]. *)
Definition reply_of (fields : list str) (a b : nat) : outcome :=
  Reply (wire (join comma fields ++ repeat 25%N a ++ repeat 0%N b)).

(** The separator of the commands. *)
Definition hash : N := 35.

Section TextOf.
Context {ucd : UnicodeData}.

(** What [get_nw], [get_time] and [get_temperature] make of the text of
    their exchange. *)
Definition nw_of (text : str) : result (option NwInfo) :=
  let r := split comma text in
  if str_eqb (status text) (lit "OPOK")
  then
    rbind (dotted r 2) (fun ip =>
    rbind (dotted r 6) (fun gateway =>
    rbind (dotted r 10) (fun subnet =>
    Ok (Some {| nw_ip := ip; nw_gateway := gateway; nw_subnet := subnet |}))))
  else Ok None.

Definition time_of (text : str) : result (option datetime) :=
  if str_eqb (status text) (lit "OPOK")
  then
    rbind (comprehension int (skipn 1 (split comma text))) (fun d =>
    rbind (getitem d 6) (fun d6 =>
    rbind (getitem d 5) (fun d5 =>
    rbind (getitem d 4) (fun d4 =>
    rbind (getitem d 0) (fun d0 =>
    rbind (getitem d 1) (fun d1 =>
    rbind (getitem d 2) (fun d2 =>
    rbind (datetime_new (2000 + d6) d5 d4 d0 d1 d2) (fun t =>
    Ok (Some t)))))))))
  else Ok None.

Definition temperature_of (text : str) : result (option Temperature) :=
  let r := split comma text in
  if str_eqb (status text) (lit "OK")
  then
    rbind (getitem r 1) (fun r1 =>
    rbind (int r1) (fun c =>
    rbind (getitem r 2) (fun r2 =>
    rbind (int r2) (fun t =>
    Ok (Some {| current := c; target := t |})))))
  else Ok None.

(** What a unit's text adds to the power: a unit that answers [OK,w,...]
    with an integer adds [w]; a unit whose status token is not [OK] adds
    nothing. *)
Inductive unit_power : str -> option Z -> Prop :=
| power_ok (text f1 : str) (rest : list str) (w : Z) :
    split comma text = lit "OK" :: f1 :: rest ->
    int f1 = Ok w ->
    unit_power text (Some w)
| power_failed (text : str) :
    status text <> lit "OK" ->
    unit_power text None.

Definition add_power (total : Z) (c : option Z) : Z :=
  match c with
  | Some w => (total + w)%Z
  | None => total
  end.

(** What the [?F] text gives the constructor: the two fields after [OK], or
    two [None] for another status token. *)
Inductive unit_fw : str -> option str * option str -> Prop :=
| fw_ok (text f1 f2 : str) (rest : list str) :
    split comma text = lit "OK" :: f1 :: f2 :: rest ->
    unit_fw text (Some f1, Some f2)
| fw_failed (text : str) :
    status text <> lit "OK" ->
    unit_fw text (None, None).

End TextOf.

(* ================================================================== *)
(** * The integration: [__init__.py], [climate.py], [sensor.py] *)
(* ================================================================== *)

Module Integration.

(** What [async_setup_entry] of [__init__.py] can raise: the framework's
    [ConfigEntryNotReady], what the client raised, or another exception of
    the framework. *)
Inductive setup_exn : Set :=
| ConfigEntryNotReady
| Propagated (e : exn)
| FrameworkError.

Definition slash : N := 47.

(** The keyword arguments of [device_registry.async_get_or_create];
    [identifiers] is the second component of the one pair of the set, the
    first being the constant [DOMAIN]. *)
Record DeviceEntry : Set := mk_device {
  identifiers : str;
  manufacturer : str;
  name : str;
  model : str;
  sw_version : str;
  serial_number : str
}.

Section Setup.
Context {ucd : UnicodeData}.

(** [model=hub.device_id.split("/")[0]] of the device entry. *)
Definition device_model (hub : Hub) : result str :=
  getitem (split slash (device_id hub)) 0.

Section Framework.

(** The two calls into the framework: forwarding the entry to the platforms,
    which find the hub in [hass.data] and use its socket, and the device
    registry.  Each returns ([None]) or raises, and leaves a socket. *)
Variable async_forward_entry_setups : Hub -> Socket -> option setup_exn * Socket.
Variable async_get_or_create : DeviceEntry -> Socket -> option setup_exn * Socket.

(** [async_setup_entry] of [__init__.py]: the hub it has stored when it
    returns [True], or what it raises. *)
Definition async_setup_entry (host : str) (port : Z)
  : Socket -> (setup_exn + Hub) * Socket :=
  fun sock =>
    match HeatappHub.__init__ host port sock with
    | (Raise ConnectionError, sock') => (inl ConfigEntryNotReady, sock')
    | (Raise e, sock') => (inl (Propagated e), sock')
    | (Ok hub, sock') =>
        match ready (address hub) sock' with
        | (Ok true, sock'') =>
            match async_forward_entry_setups hub sock'' with
            | (Some e, sock3) => (inl e, sock3)
            | (None, sock3) =>
                match device_model hub with
                | Raise e => (inl (Propagated e), sock3)
                | Ok m =>
                    match async_get_or_create
                            {| identifiers := device_id hub;
                               manufacturer := lit "heatapp";
                               name := lit "heatapp";
                               model := m;
                               sw_version := HeatappHub.firmware hub;
                               serial_number := device_id hub |} sock3 with
                    | (Some e, sock4) => (inl e, sock4)
                    | (None, sock4) => (inr hub, sock4)
                    end
                end
            end
        | (Ok false, sock'') => (inl ConfigEntryNotReady, sock'')
        | (Raise e, sock'') => (inl (Propagated e), sock'')
        end
    end.

End Framework.



(** [update] of the climate entity: the three attributes it assigns, or
    [None] when it assigns nothing. *)
Inductive HVACAction : Set := HEATING | IDLE.

Record Attributes : Set := mk_attributes {
  _attr_current_temperature : Z;
  _attr_target_temperature : Z;
  _attr_hvac_action : HVACAction
}.

Definition update (radiator : Radiator) : M (option Attributes) :=
  r <- get_temperature radiator ;;
  match r with
  | Some r =>
      ret (Some {| _attr_current_temperature := current r;
                   _attr_target_temperature := target r;
                   _attr_hvac_action :=
                     if (target r >? current r)%Z then HEATING else IDLE |})
  | None => ret None
  end.

End Setup.

(** [f"{hub.idu}_{radiator.rad_id}"], the unique id of both entities. *)
Definition unique_id (hub : Hub) (radiator : Radiator) : str :=
  idu hub ++ lit "_" ++ str_of_int (rad_id radiator).

End Integration.

(* ================================================================== *)
(** * Lemmas on the runtime *)
(* ================================================================== *)

Lemma str_eqb_eq (a b : str) : str_eqb a b = true <-> a = b.
Proof.
  unfold str_eqb. destruct (list_eq_dec N.eq_dec a b); split; congruence.
Qed.

Lemma str_eqb_neq (a b : str) : str_eqb a b = false <-> a <> b.
Proof.
  unfold str_eqb. destruct (list_eq_dec N.eq_dec a b); split; congruence.
Qed.

Lemma split_cons (sep : N) (s : str) : exists f fs, split sep s = f :: fs.
Proof.
  induction s as [|c s IH]; simpl.
  - eauto.
  - destruct (c =? sep)%N; [eauto|].
    destruct IH as (f & fs & ->). eauto.
Qed.

Lemma getitem_status (text : str) :
  getitem (split comma text) 0 = Ok (status text).
Proof.
  unfold status. destruct (split_cons comma text) as (f & fs & ->). reflexivity.
Qed.

Lemma utf8_encode_ascii (s : str) :
  is_ascii s = true -> utf8_encode s = Some s.
Proof.
  induction s as [|c s IH]; simpl; [reflexivity|].
  intros H. apply andb_prop in H as [Hc Hs].
  unfold utf8_encode_char. rewrite Hc, (IH Hs). reflexivity.
Qed.

Lemma encode_ascii (s : str) : is_ascii s = true -> encode s = Ok (wire s).
Proof.
  intros H. unfold encode. rewrite (utf8_encode_ascii _ H). reflexivity.
Qed.

Lemma is_ascii_app (a b : str) :
  is_ascii (a ++ b) = is_ascii a && is_ascii b.
Proof. apply forallb_app. Qed.

Lemma is_ascii_uint (d : Decimal.uint) :
  is_ascii (lit (NilEmpty.string_of_uint d)) = true.
Proof. induction d; simpl; auto. Qed.

Lemma is_ascii_str_of_int (z : Z) : is_ascii (str_of_int z) = true.
Proof.
  unfold str_of_int, NilZero.string_of_int, NilZero.string_of_uint.
  destruct (Z.to_int z) as [d|d]; destruct d; try reflexivity;
    try apply is_ascii_uint;
    change (is_ascii (lit (String "-" ?s))) with (is_ascii (lit s));
    apply is_ascii_uint.
Qed.

Lemma is_ascii_write_command (rad i t : Z) :
  is_ascii (write_command rad i t) = true.
Proof.
  unfold write_command.
  rewrite !is_ascii_app, !is_ascii_str_of_int. reflexivity.
Qed.

Lemma is_ascii_read_UD (rad i : Z) : is_ascii (read_command rad i "UD") = true.
Proof.
  unfold read_command.
  rewrite !is_ascii_app, !is_ascii_str_of_int. reflexivity.
Qed.

Lemma is_ascii_read_F (rad i : Z) : is_ascii (read_command rad i "F") = true.
Proof.
  unfold read_command.
  rewrite !is_ascii_app, !is_ascii_str_of_int. reflexivity.
Qed.

Lemma is_ascii_read_T (rad i : Z) : is_ascii (read_command rad i "T") = true.
Proof.
  unfold read_command.
  rewrite !is_ascii_app, !is_ascii_str_of_int. reflexivity.
Qed.

(** ** One exchange *)

Lemma send_command_exchange (self : Address) (command : str) (payload : bytes)
  (sock : Socket) :
  encode command = Ok payload ->
  send_command self command sock
  = (answer (next_outcome sock), exchanged payload self sock).
Proof.
  intros E. destruct sock as [inc snt]. destruct inc as [|[data|] rest];
    unfold send_command, recvfrom, sendto, next_outcome, exchanged, answer;
    rewrite E; cbn [incoming sent tl rbind]; try reflexivity.
  destruct (decode (firstn 1024 data)); reflexivity.
Qed.

Lemma exchange_bind {A} (self : Address) (command : str) (payload : bytes)
  (k : str -> M A) (sock : Socket) :
  encode command = Ok payload ->
  (text <- send_command self command ;; k text) sock
  = match answer (next_outcome sock) with
    | Ok text => k text (exchanged payload self sock)
    | Raise e => (Raise e, exchanged payload self sock)
    end.
Proof.
  intros E. unfold bind. rewrite (send_command_exchange self command payload sock E).
  reflexivity.
Qed.

Lemma status_bind {A} (text : str) (k : str -> M A) (sock : Socket) :
  (r0 <- lift (getitem (split comma text) 0) ;; k r0) sock = k (status text) sock.
Proof. unfold bind, lift. rewrite getitem_status. reflexivity. Qed.

Lemma upcoming_S (k : nat) (sock : Socket) :
  upcoming (S k) (incoming sock)
  = next_outcome sock :: upcoming k (tl (incoming sock)).
Proof. unfold next_outcome. destruct (incoming sock); reflexivity. Qed.

Lemma exchanged_all_cons (p : bytes) (ps : list bytes) (self : Address)
  (sock : Socket) :
  exchanged_all ps self (exchanged p self sock)
  = exchanged_all (p :: ps) self sock.
Proof.
  unfold exchanged_all, exchanged; cbn [incoming sent map List.length].
  rewrite <- app_assoc. f_equal.
  destruct (incoming sock); [now rewrite skipn_nil | reflexivity].
Qed.

Lemma range_length (n : Z) : List.length (range 1 (n + 1)) = Z.to_nat n.
Proof.
  unfold range. rewrite length_map, length_seq. f_equal. lia.
Qed.


(* ================================================================== *)
(** * set_temperature *)
(* ================================================================== *)

Section SetTemperature.
Variables (self : Radiator) (target : Z).


End SetTemperature.


(* ================================================================== *)
(** * get_energy_usage *)
(* ================================================================== *)

Section GetEnergyUsage.
Context {ucd : UnicodeData}.

Variable self : Radiator.



End GetEnergyUsage.

(* ================================================================== *)
(** * The hub's queries, one exchange each *)
(* ================================================================== *)

Section HubQueries.
Context {ucd : UnicodeData}.

Lemma lift_bind {A B} (r : result A) (k : A -> M B) (sock : Socket) :
  (x <- lift r ;; k x) sock
  = match r with Ok a => k a sock | Raise e => (Raise e, sock) end.
Proof. unfold bind, lift. destruct r; reflexivity. Qed.

Lemma __get_radiator_ids_run (self : Address) (sock : Socket) :
  __get_radiator_ids self sock
  = (rbind (answer (next_outcome sock)) topology_of,
     exchanged (wire (lit "OPS2/")) self sock).
Proof.
  unfold __get_radiator_ids.
  rewrite (exchange_bind _ _ (wire (lit "OPS2/"))) by reflexivity.
  destruct (answer (next_outcome sock)) as [text|e]; [|reflexivity].
  rewrite status_bind. unfold topology_of, rbind.
  destruct (str_eqb (status text) (lit "OPOK")); reflexivity.
Qed.

Lemma __get_radiators_per_zone_run (self : Address) (sock : Socket) :
  __get_radiators_per_zone self sock
  = (rbind (answer (next_outcome sock)) topology_of,
     exchanged (wire (lit "OPS3/")) self sock).
Proof.
  unfold __get_radiators_per_zone.
  rewrite (exchange_bind _ _ (wire (lit "OPS3/"))) by reflexivity.
  destruct (answer (next_outcome sock)) as [text|e]; [|reflexivity].
  rewrite status_bind. unfold topology_of, rbind.
  destruct (str_eqb (status text) (lit "OPOK")); reflexivity.
Qed.

Lemma get_fw_run (self : Address) (sock : Socket) :
  get_fw self sock
  = (rbind (answer (next_outcome sock)) fw_of,
     exchanged (wire (lit "OPF/")) self sock).
Proof.
  unfold get_fw.
  rewrite (exchange_bind _ _ (wire (lit "OPF/"))) by reflexivity.
  destruct (answer (next_outcome sock)) as [text|e]; [|reflexivity].
  rewrite status_bind. unfold fw_of, rbind.
  destruct (str_eqb (status text) (lit "OPOK")); [|reflexivity].
  rewrite !lift_bind.
  destruct (getitem (split comma text) 1); [|reflexivity].
  rewrite !lift_bind.
  destruct (getitem (split comma text) 2); [|reflexivity].
  rewrite !lift_bind.
  destruct (getitem (split comma text) 3); reflexivity.
Qed.

Lemma comprehension_length {A B} (f : A -> result B) (l : list A) (ys : list B) :
  comprehension f l = Ok ys -> List.length ys = List.length l.
Proof.
  revert ys. induction l as [|x l IH]; intros ys; cbn [comprehension].
  - intros [= <-]. reflexivity.
  - destruct (f x); cbn [rbind]; [|discriminate].
    destruct (comprehension f l) as [ys'|]; cbn [rbind]; [|discriminate].
    intros [= <-]. cbn [List.length]. now rewrite (IH ys').
Qed.

Lemma comprehension_raises {A B} (f : A -> result B) (l : list A) (e : exn) :
  comprehension f l = Raise e -> exists x, In x l /\ f x = Raise e.
Proof.
  induction l as [|x l IH]; cbn [comprehension]; [discriminate|].
  destruct (f x) eqn:E; cbn [rbind].
  - destruct (comprehension f l); cbn [rbind]; [discriminate|].
    intros [= <-]. destruct (IH eq_refl) as (y & Hy & Ey).
    exists y. split; [now right | exact Ey].
  - intros [= <-]. exists x. split; [now left | exact E].
Qed.

Lemma topology_of_length (text : str) (l : list Z) :
  topology_of text = Ok l -> List.length l = topology_count text.
Proof.
  unfold topology_of, topology_count.
  destruct (str_eqb (status text) (lit "OPOK")).
  - apply comprehension_length.
  - intros [= <-]. reflexivity.
Qed.

Lemma topology_of_rejected (text : str) :
  status text <> lit "OPOK" -> topology_of text = Ok [].
Proof.
  intros H. apply str_eqb_neq in H. unfold topology_of. now rewrite H.
Qed.

(** The hub's constructor, by the texts of its three exchanges. *)
Lemma hub_init_run (host : str) (port : Z) (sock : Socket) :
  let self := (host, port) in
  let s1 := exchanged (wire (lit "OPF/")) self sock in
  let s2 := exchanged (wire (lit "OPS2/")) self s1 in
  let s3 := exchanged (wire (lit "OPS3/")) self s2 in
  HeatappHub.__init__ host port sock
  = match rbind (answer (next_outcome sock)) fw_of with
    | Raise e => (Raise e, s1)
    | Ok None => (Raise ConnectionError, s1)
    | Ok (Some fw) =>
        match rbind (answer (next_outcome s1)) topology_of with
        | Raise e => (Raise e, s2)
        | Ok ids =>
            match rbind (answer (next_outcome s2)) topology_of with
            | Raise e => (Raise e, s3)
            | Ok per_zone =>
                (Ok {| _host := host; _port := port;
                       HeatappHub.firmware := fw_firmware fw;
                       device_id := fw_device_id fw;
                       idu := fw_idu fw;
                       radiator_ids := ids;
                       radiators_per_zone := per_zone |}, s3)
            end
        end
    end.
Proof.
  intros self s1 s2 s3. unfold HeatappHub.__init__.
  unfold bind at 1. rewrite get_fw_run. fold self s1.
  destruct (rbind (answer (next_outcome sock)) fw_of) as [[fw|]|e];
    try reflexivity.
  unfold bind at 1. rewrite __get_radiator_ids_run. fold s2.
  destruct (rbind (answer (next_outcome s1)) topology_of) as [ids|e];
    [|reflexivity].
  unfold bind at 1. rewrite __get_radiators_per_zone_run. fold s3.
  destruct (rbind (answer (next_outcome s2)) topology_of); reflexivity.
Qed.

End HubQueries.

(* ================================================================== *)
(** * Hub construction *)
(* ================================================================== *)

Section HubConstruction.
Context {ucd : UnicodeData}.

Lemma answer_raises (o : outcome) (e : exn) :
  answer o = Raise e -> e = UnicodeDecodeError.
Proof.
  destruct o as [data|]; cbn [answer]; [|discriminate].
  unfold decode. destruct (utf8_decode _); cbn [rbind]; congruence.
Qed.

Lemma getitem_raises {A} (l : list A) (i : nat) (e : exn) :
  getitem l i = Raise e -> e = IndexError.
Proof. unfold getitem. destruct (nth_error l i); congruence. Qed.

Lemma int_raises (s : str) (e : exn) : int s = Raise e -> e = ValueError.
Proof. unfold int. destruct (PyLong_FromString _); congruence. Qed.

Lemma fw_of_raises (text : str) (e : exn) :
  fw_of text = Raise e -> e = IndexError.
Proof.
  unfold fw_of. destruct (str_eqb _ _); [|discriminate].
  destruct (getitem (split comma text) 1) eqn:E1; cbn [rbind];
    [|intros [= <-]; eapply getitem_raises; eassumption].
  destruct (getitem (split comma text) 2) eqn:E2; cbn [rbind];
    [|intros [= <-]; eapply getitem_raises; eassumption].
  destruct (getitem (split comma text) 3) eqn:E3; cbn [rbind];
    [discriminate|intros [= <-]; eapply getitem_raises; eassumption].
Qed.

Lemma fw_of_none (text : str) :
  fw_of text = Ok None <-> status text <> lit "OPOK".
Proof.
  rewrite <- str_eqb_neq. unfold fw_of.
  destruct (str_eqb (status text) (lit "OPOK")); [|tauto].
  split; [|discriminate].
  destruct (getitem (split comma text) 1); cbn [rbind]; [|discriminate].
  destruct (getitem (split comma text) 2); cbn [rbind]; [|discriminate].
  destruct (getitem (split comma text) 3); cbn [rbind]; discriminate.
Qed.

Lemma topology_of_raises (text : str) (e : exn) :
  topology_of text = Raise e -> e = ValueError.
Proof.
  unfold topology_of. destruct (str_eqb _ _); [|discriminate].
  intros H. apply comprehension_raises in H as (x & _ & H).
  eapply int_raises; eassumption.
Qed.

Lemma topology_query_raises (o : outcome) (e : exn) :
  rbind (answer o) topology_of = Raise e ->
  e = UnicodeDecodeError \/ e = ValueError.
Proof.
  destruct (answer o) as [text|e'] eqn:A; cbn [rbind].
  - intros H. right. eapply topology_of_raises; eassumption.
  - intros [= ->]. left. eapply answer_raises; eassumption.
Qed.

Lemma upcoming_3 (self : Address) (p1 p2 : bytes) (sock : Socket) :
  upcoming 3 (incoming sock)
  = [next_outcome sock;
     next_outcome (exchanged p1 self sock);
     next_outcome (exchanged p2 self (exchanged p1 self sock))].
Proof.
  unfold next_outcome, exchanged; cbn [incoming].
  destruct (incoming sock) as [|o1 [|o2 [|o3 l]]]; reflexivity.
Qed.

(** C3, as the code has it.  When the constructor returns a hub, each of the
    three exchanges has yielded a text; [radiator_ids] has one entry for each
    field of the [OPS2/] text from index 2 on if that text's status token is
    [OPOK] and is empty otherwise, and [radiators_per_zone] is read off the
    [OPS3/] text in the same way, independently.  So the two lengths agree
    exactly when the two texts yield the same number of entries, which
    includes the case that both are rejected (both sequences empty). *)
Theorem hub_topology_lengths
  (host : str) (port : Z) (sock sock' : Socket) (hub : Hub) :
  HeatappHub.__init__ host port sock = (Ok hub, sock') ->
  exists t1 t2 t3,
    map answer (upcoming 3 (incoming sock)) = [Ok t1; Ok t2; Ok t3]
    /\ List.length (radiator_ids hub) = topology_count t2
    /\ List.length (radiators_per_zone hub) = topology_count t3
    /\ (List.length (radiator_ids hub) = List.length (radiators_per_zone hub)
        <-> topology_count t2 = topology_count t3)
    /\ (status t2 <> lit "OPOK" -> radiator_ids hub = [])
    /\ (status t3 <> lit "OPOK" -> radiators_per_zone hub = []).
Proof.
  intros H. rewrite hub_init_run in H.
  rewrite (upcoming_3 (host, port) (wire (lit "OPF/")) (wire (lit "OPS2/"))).
  cbn [map].
  set (s1 := exchanged (wire (lit "OPF/")) (host, port) sock) in *.
  set (s2 := exchanged (wire (lit "OPS2/")) (host, port) s1) in *.
  destruct (answer (next_outcome sock)) as [t1|]; cbn [rbind] in H;
    [|discriminate].
  destruct (fw_of t1) as [[fw|]|]; try discriminate.
  destruct (answer (next_outcome s1)) as [t2|]; cbn [rbind] in H;
    [|discriminate].
  destruct (topology_of t2) as [ids|] eqn:E2; [|discriminate].
  destruct (answer (next_outcome s2)) as [t3|]; cbn [rbind] in H;
    [|discriminate].
  destruct (topology_of t3) as [pz|] eqn:E3; [|discriminate].
  injection H as <- _. cbn [radiator_ids radiators_per_zone].
  exists t1, t2, t3.
  pose proof (topology_of_length _ _ E2) as L2.
  pose proof (topology_of_length _ _ E3) as L3.
  split; [reflexivity|]. split; [exact L2|]. split; [exact L3|].
  split; [rewrite L2, L3; tauto|]. split.
  - intros R. rewrite (topology_of_rejected _ R) in E2. congruence.
  - intros R. rewrite (topology_of_rejected _ R) in E3. congruence.
Qed.

Lemma rejected_timeout : rejected TimedOut.
Proof. exists (lit "TIMEOUT"). split; [reflexivity | discriminate]. Qed.

(** C8.  The constructor raises [ConnectionError] exactly when the [OPF/]
    exchange is rejected: it timed out, or it yielded a text whose status
    token is not [OPOK].  A rejected [OPS2/] or [OPS3/] exchange makes its
    query return the empty list without raising, and after an accepted
    handshake the constructor then returns a hub whose corresponding
    sequence is empty. *)
Theorem hub_init_connection_error (host : str) (port : Z) (sock : Socket) :
  let self := (host, port) in
  (fst (HeatappHub.__init__ host port sock) = Raise ConnectionError
   <-> rejected (next_outcome sock))
  /\ rejected TimedOut
  /\ (forall s, rejected (next_outcome s) ->
        fst (__get_radiator_ids self s) = Ok []
        /\ fst (__get_radiators_per_zone self s) = Ok [])
  /\ (forall fw s1,
        get_fw self sock = (Ok (Some fw), s1) ->
        let s2 := exchanged (wire (lit "OPS2/")) self s1 in
        let s3 := exchanged (wire (lit "OPS3/")) self s2 in
        (rejected (next_outcome s1) ->
         forall per_zone,
           fst (__get_radiators_per_zone self s2) = Ok per_zone ->
           HeatappHub.__init__ host port sock
           = (Ok (hub_of host port fw [] per_zone), s3))
        /\ (forall ids,
              fst (__get_radiator_ids self s1) = Ok ids ->
              rejected (next_outcome s2) ->
              HeatappHub.__init__ host port sock
              = (Ok (hub_of host port fw ids []), s3))
        /\ (rejected (next_outcome s1) ->
            rejected (next_outcome s2) ->
            HeatappHub.__init__ host port sock
            = (Ok (hub_of host port fw [] []), s3))).
Proof.
  intros self.
  assert (Q : forall s, rejected (next_outcome s) ->
                rbind (answer (next_outcome s)) topology_of = Ok []).
  { intros s (text & -> & R). cbn [rbind]. now apply topology_of_rejected. }
  split; [|split; [|split]].
  - rewrite hub_init_run. fold self.
    set (s1 := exchanged (wire (lit "OPF/")) self sock).
    set (s2 := exchanged (wire (lit "OPS2/")) self s1).
    split.
    + destruct (answer (next_outcome sock)) as [t1|e1] eqn:A1; cbn [rbind].
      * destruct (fw_of t1) as [[fw|]|e] eqn:F1.
        -- destruct (rbind (answer (next_outcome s1)) topology_of)
             as [ids|e] eqn:T2.
           ++ destruct (rbind (answer (next_outcome s2)) topology_of)
                as [pz|e] eqn:T3; cbn [fst]; [discriminate|].
              intros [= ->].
              apply topology_query_raises in T3 as [|]; discriminate.
           ++ cbn [fst]. intros [= ->].
              apply topology_query_raises in T2 as [|]; discriminate.
        -- intros _. exists t1. split; [exact A1|]. now apply fw_of_none.
        -- cbn [fst]. intros [= ->]. apply fw_of_raises in F1. discriminate.
      * cbn [fst]. intros [= ->]. apply answer_raises in A1. discriminate.
    + intros (text & -> & R). cbn [rbind].
      apply fw_of_none in R. rewrite R. reflexivity.
  - exact rejected_timeout.
  - intros s R. rewrite __get_radiator_ids_run, __get_radiators_per_zone_run.
    cbn [fst]. now rewrite (Q s R).
  - intros fw s1 G s2 s3. rewrite get_fw_run in G.
    assert (G1 : rbind (answer (next_outcome sock)) fw_of = Ok (Some fw))
      by congruence.
    assert (S1 : exchanged (wire (lit "OPF/")) self sock = s1) by congruence.
    clear G. rewrite hub_init_run. fold self. rewrite G1, S1. fold s2 s3.
    split; [|split].
    + intros R pz P. rewrite (Q _ R).
      rewrite __get_radiators_per_zone_run in P. cbn [fst] in P.
      rewrite P. reflexivity.
    + intros ids I R.
      rewrite __get_radiator_ids_run in I. cbn [fst] in I. rewrite I.
      rewrite (Q _ R). reflexivity.
    + intros R2 R3. rewrite (Q _ R2), (Q _ R3). reflexivity.
Qed.

End HubConstruction.

(* ================================================================== *)
(** * Radiator construction *)
(* ================================================================== *)

Section RadiatorConstruction.
Context {ucd : UnicodeData}.

Lemma __get_fw_run (hub : Hub) (rad_id : Z) (sock : Socket) :
  __get_fw hub rad_id sock
  = (rbind (answer (next_outcome sock)) radiator_fw_of,
     exchanged (wire (read_command rad_id 1 "F")) (address hub) sock).
Proof.
  unfold __get_fw.
  rewrite (exchange_bind _ _ (wire (read_command rad_id 1 "F")))
    by apply encode_ascii, is_ascii_read_F.
  destruct (answer (next_outcome sock)) as [text|e]; [|reflexivity].
  rewrite status_bind. unfold radiator_fw_of, rbind.
  destruct (str_eqb (status text) (lit "OK")); [|reflexivity].
  rewrite !lift_bind.
  destruct (getitem (split comma text) 1); [|reflexivity].
  rewrite !lift_bind.
  destruct (getitem (split comma text) 2); reflexivity.
Qed.

Lemma index_absent (x : Z) (l : list Z) :
  ~ In x l -> index x l = Raise ValueError.
Proof.
  induction l as [|y l IH]; cbn [index In]; [reflexivity|].
  intros H. destruct (Z.eqb_spec y x) as [->|_]; [tauto|].
  rewrite IH by tauto. reflexivity.
Qed.

Lemma index_present (x : Z) (l : list Z) (i : nat) :
  index x l = Ok i -> In x l.
Proof.
  revert i. induction l as [|y l IH]; intros i; cbn [index In]; [discriminate|].
  destruct (Z.eqb_spec y x) as [->|_]; [tauto|].
  destruct (index x l); [|discriminate]. intros _. right. eapply IH; reflexivity.
Qed.

(** Whatever the loop of [__get_power] returns, it has sent reads to an
    initial run of its units, and to all of them if it returns a value. *)
Lemma __get_power_loop_sent (hub : Hub) (rad_id : Z) (units : list Z) :
  forall (total : Z) (sock : Socket),
    let out := __get_power_loop hub rad_id units total sock in
    exists k,
      sent (snd out)
      = sent sock ++ map (read_datagram hub rad_id "UD") (firstn k units)
      /\ (raises (fst out) = false -> firstn k units = units).
Proof.
  induction units as [|i units IH]; intros total sock; cbn zeta.
  - exists 0%nat. cbn. rewrite app_nil_r. tauto.
  - cbn [__get_power_loop].
    rewrite (exchange_bind _ _ (wire (read_command rad_id i "UD")))
      by apply encode_ascii, is_ascii_read_UD.
    set (s1 := exchanged (wire (read_command rad_id i "UD")) (address hub) sock).
    assert (Stop : forall e : exn,
      exists k, sent (snd (@Raise Z e, s1))
                = sent sock ++ map (read_datagram hub rad_id "UD") (firstn k (i :: units))
                /\ (raises (fst (@Raise Z e, s1)) = false
                    -> firstn k (i :: units) = i :: units)).
    { intros e. exists 1%nat. cbn. split; [reflexivity | discriminate]. }
    assert (Go : forall total',
      exists k, sent (snd (__get_power_loop hub rad_id units total' s1))
                = sent sock ++ map (read_datagram hub rad_id "UD") (firstn k (i :: units))
                /\ (raises (fst (__get_power_loop hub rad_id units total' s1)) = false
                    -> firstn k (i :: units) = i :: units)).
    { intros total'. destruct (IH total' s1) as (k & Hs & Hk).
      exists (S k). cbn [firstn map]. split.
      - rewrite Hs. unfold s1, exchanged; cbn [sent].
        rewrite <- app_assoc. reflexivity.
      - intros H. now rewrite (Hk H). }
    destruct (answer (next_outcome sock)) as [text|e]; [|apply Stop].
    rewrite status_bind.
    destruct (str_eqb (status text) (lit "OK")); [|apply Go].
    rewrite lift_bind. destruct (getitem (split comma text) 1); [|apply Stop].
    rewrite lift_bind. destruct (int a); [apply Go | apply Stop].
Qed.

(** C4, as the code has it.  The constructor first sends the [?F] read of
    unit 1; the position lookup of [rad_id] in [radiator_ids] comes after
    that exchange, inside the power computation.  When [rad_id] is absent the
    constructor raises (it never returns a radiator), having sent the [?F]
    read and no [?UD] read.  When it returns a radiator, the lookup has
    found a unit count [n] and the [?UD] reads of units [1..n] were sent
    after the [?F] read. *)
Theorem radiator_init_order (hub : Hub) (rad_id : Z) (sock : Socket) :
  (exists more,
     sent (snd (HeatappRadiator.__init__ hub rad_id sock))
     = sent sock ++ read_datagram hub rad_id "F" 1 :: more)
  /\ (~ In rad_id (radiator_ids hub) ->
      exists e sock',
        HeatappRadiator.__init__ hub rad_id sock = (Raise e, sock')
        /\ sent sock' = sent sock ++ [read_datagram hub rad_id "F" 1])
  /\ (forall rad sock',
        HeatappRadiator.__init__ hub rad_id sock = (Ok rad, sock') ->
        exists n,
          rad_count hub rad_id = Ok n
          /\ In rad_id (radiator_ids hub)
          /\ sent sock'
             = sent sock ++ read_datagram hub rad_id "F" 1
                 :: map (read_datagram hub rad_id "UD") (range 1 (n + 1))).
Proof.
  unfold HeatappRadiator.__init__.
  unfold bind at 1 3 5. rewrite __get_fw_run.
  set (s1 := exchanged (wire (read_command rad_id 1 "F")) (address hub) sock).
  assert (S1 : sent s1 = sent sock ++ [read_datagram hub rad_id "F" 1])
    by reflexivity.
  destruct (rbind (answer (next_outcome sock)) radiator_fw_of) as [fw|e].
  2:{ split; [|split].
      - exists []. exact S1.
      - intros _. exists e, s1. split; [reflexivity | exact S1].
      - discriminate. }
  unfold bind, __get_power. rewrite lift_bind.
  destruct (rad_count hub rad_id) as [n|e] eqn:R.
  - pose proof (__get_power_loop_sent hub rad_id (range 1 (n + 1)) 0 s1)
      as (k & Hs & Hk). cbn zeta in Hs, Hk.
    assert (P : In rad_id (radiator_ids hub)).
    { unfold rad_count in R.
      destruct (index rad_id (radiator_ids hub)) eqn:I; [|discriminate].
      eapply index_present; eassumption. }
    unfold ret.
    destruct (__get_power_loop hub rad_id (range 1 (n + 1)) 0 s1) as [[p|e] s2];
      cbn [fst snd] in *.
    + split; [|split].
      * eexists. rewrite Hs, S1, <- app_assoc. reflexivity.
      * tauto.
      * intros rad sock' [= <- <-]. exists n.
        split; [reflexivity|]. split; [exact P|].
        rewrite Hs, S1, <- app_assoc, (Hk eq_refl). reflexivity.
    + split; [|split].
      * eexists. rewrite Hs, S1, <- app_assoc. reflexivity.
      * tauto.
      * discriminate.
  - split; [|split].
    + exists []. exact S1.
    + intros _. exists e, s1. split; [reflexivity | exact S1].
    + discriminate.
Qed.

End RadiatorConstruction.

(* ================================================================== *)
(** * get_time *)
(* ================================================================== *)

Section GetTime.
Context {ucd : UnicodeData}.

Lemma datetime_new_value (y mo d h mi s : Z) :
  raises (datetime_new y mo d h mi s) = false ->
  datetime_new y mo d h mi s = Ok (mk_datetime y mo d h mi s).
Proof.
  unfold datetime_new.
  destruct (negb _); [discriminate|].
  destruct (_ && _); [reflexivity | discriminate].
Qed.

(** C5, as the code has it.  For every [OPH/] text with status token [OPOK]
    whose further fields are all integers, of which the first seven are, in
    this order, hour, minute, second, a field that is not used, day, month
    and year offset, and which name a date and a time that exist, [get_time]
    returns the timestamp (2000 + year offset, month, day, hour, minute,
    second). *)
Theorem get_time_fields
  (self : Address) (sock : Socket) (text : str) (fields : list str)
  (h mi s unused d mo y : Z) (more : list Z) :
  answer (next_outcome sock) = Ok text ->
  split comma text = lit "OPOK" :: fields ->
  comprehension int fields = Ok (h :: mi :: s :: unused :: d :: mo :: y :: more) ->
  raises (datetime_new (2000 + y) mo d h mi s) = false ->
  get_time self sock
  = (Ok (Some (mk_datetime (2000 + y) mo d h mi s)),
     exchanged (wire (lit "OPH/")) self sock).
Proof.
  intros A S C V. unfold get_time.
  rewrite (exchange_bind _ _ (wire (lit "OPH/"))) by reflexivity.
  rewrite A, status_bind.
  assert (St : status text = lit "OPOK") by (unfold status; now rewrite S).
  rewrite St.
  replace (str_eqb (lit "OPOK") (lit "OPOK")) with true by reflexivity.
  rewrite S. cbn [skipn]. rewrite lift_bind, C.
  rewrite !lift_bind. cbn [getitem nth_error].
  rewrite !lift_bind. cbn [getitem nth_error].
  rewrite (datetime_new_value _ _ _ _ _ _ V). reflexivity.
Qed.

End GetTime.

(* ================================================================== *)
(** * send_command and the padding *)
(* ================================================================== *)

Section Padding.

Lemma mem_single (x c : N) : mem x [c] = (x =? c)%N.
Proof. unfold mem; cbn. apply orb_false_r. Qed.

Lemma rstrip_single (c : N) (s : str) :
  exists k, s = rstrip [c] s ++ repeat c k /\ ends_in c (rstrip [c] s) = false.
Proof.
  induction s as [|x s (k & Hs & He)]; cbn [rstrip].
  - exists 0%nat. split; reflexivity.
  - destruct (rstrip [c] s) as [|y t] eqn:R.
    + rewrite mem_single. destruct (N.eqb_spec x c) as [->|Hx].
      * exists (S k). cbn in *. now rewrite <- Hs.
      * exists k. cbn in *. rewrite <- Hs. split; [reflexivity|].
        now apply N.eqb_neq.
    + exists k. split; [cbn [app]; f_equal; exact Hs | exact He].
Qed.

Lemma rstrip_keeps (c : N) (s : str) :
  ends_in c s = false -> rstrip [c] s = s.
Proof.
  induction s as [|x s IH]; cbn [rstrip ends_in]; [reflexivity|].
  destruct s as [|y s].
  - cbn [rstrip]. rewrite mem_single. now intros ->.
  - intros H. rewrite (IH H). reflexivity.
Qed.

Lemma rstrip_repeat (c : N) (s : str) (k : nat) :
  rstrip [c] (s ++ repeat c k) = rstrip [c] s.
Proof.
  assert (R : rstrip [c] (repeat c k) = []).
  { induction k as [|k IH]; cbn [repeat rstrip]; [reflexivity|].
    rewrite IH, mem_single, N.eqb_refl. reflexivity. }
  induction s as [|x s IH]; cbn [app rstrip]; [exact R|].
  now rewrite IH.
Qed.

Lemma ends_in_app_repeat (c x : N) (s : str) (k : nat) :
  x <> c -> ends_in c (s ++ repeat x (S k)) = false.
Proof.
  intros Hx. induction s as [|y s IH].
  - cbn [app]. induction k as [|k IHk]; cbn in *.
    + now apply N.eqb_neq.
    + exact IHk.
  - cbn [app ends_in]. rewrite IH.
    destruct (s ++ repeat x (S k)) eqn:E; [|reflexivity].
    destruct s; discriminate.
Qed.

(** C6, as the code has it.  For a datagram whose first 1024 bytes decode to
    [text], [send_command] returns [text] without its final run of [0x00]
    and without the run of [0x19] that then ends it: a prefix [t] with
    [text = t ++ 0x19^a ++ 0x00^b] that does not end in [0x19] and, if no
    [0x19] was removed, does not end in [0x00].  Padding made of [0x19]s
    followed by [0x00]s after a text ending in neither is thus removed
    whole. *)
Theorem send_command_strips
  (self : Address) (command : str) (payload data : bytes)
  (rest : list outcome) (sent0 : list (bytes * Address)) (text : str) :
  encode command = Ok payload ->
  decode (firstn 1024 data) = Ok text ->
  (exists (t : str) (a b : nat),
     send_command self command {| incoming := Reply data :: rest; sent := sent0 |}
     = (Ok t, {| incoming := rest; sent := sent0 ++ [(payload, self)] |})
     /\ text = t ++ repeat 25%N a ++ repeat 0%N b
     /\ ends_in 25 t = false
     /\ (a = 0%nat -> ends_in 0 t = false))
  /\ (forall (core : str) (a b : nat),
        text = core ++ repeat 25%N a ++ repeat 0%N b ->
        ends_in 25 core = false ->
        ends_in 0 core = false ->
        fst (send_command self command
               {| incoming := Reply data :: rest; sent := sent0 |})
        = Ok core).
Proof.
  intros E D.
  rewrite (send_command_exchange self command payload _ E).
  unfold next_outcome, exchanged; cbn [incoming sent tl answer fst].
  rewrite D; cbn [rbind]. split.
  - destruct (rstrip_single 0 text) as (b & H0 & E0).
    destruct (rstrip_single 25 (rstrip [0%N] text)) as (a & H25 & E25).
    exists (rstrip [25%N] (rstrip [0%N] text)), a, b.
    split; [reflexivity|]. split; [|split].
    + rewrite app_assoc, <- H25. exact H0.
    + exact E25.
    + intros ->. cbn [repeat] in H25. rewrite app_nil_r in H25.
      rewrite <- H25. exact E0.
  - intros core a b -> C25 C0. f_equal.
    rewrite app_assoc, rstrip_repeat.
    assert (K : rstrip [0%N] (core ++ repeat 25%N a) = core ++ repeat 25%N a).
    { apply rstrip_keeps. destruct a as [|a].
      - cbn [repeat]. rewrite app_nil_r. exact C0.
      - apply ends_in_app_repeat. discriminate. }
    rewrite K, rstrip_repeat. now apply rstrip_keeps.
Qed.

End Padding.

(* ================================================================== *)
(** * Responses that are not accepted *)
(* ================================================================== *)

Section NotAccepted.
Context {ucd : UnicodeData}.

Variables (self : Address) (sock : Socket) (text : str).
Hypothesis A : answer (next_outcome sock) = Ok text.

Lemma ready_run :
  ready self sock
  = (Ok (str_eqb (status text) (lit "OPOK")),
     exchanged (wire (lit "OPS1/")) self sock).
Proof.
  unfold ready.
  rewrite (exchange_bind _ _ (wire (lit "OPS1/"))) by reflexivity.
  rewrite A, status_bind.
  destruct (str_eqb (status text) (lit "OPOK")); reflexivity.
Qed.

Lemma get_fw_rejected :
  status text <> lit "OPOK" -> fst (get_fw self sock) = Ok None.
Proof.
  intros R. rewrite get_fw_run, A. cbn [fst rbind]. now apply fw_of_none.
Qed.

Lemma get_nw_rejected :
  status text <> lit "OPOK" -> fst (get_nw self sock) = Ok None.
Proof.
  intros R. apply str_eqb_neq in R. unfold get_nw.
  rewrite (exchange_bind _ _ (wire (lit "OPS38/"))) by reflexivity.
  rewrite A, status_bind, R. reflexivity.
Qed.

Lemma get_time_rejected :
  status text <> lit "OPOK" -> fst (get_time self sock) = Ok None.
Proof.
  intros R. apply str_eqb_neq in R. unfold get_time.
  rewrite (exchange_bind _ _ (wire (lit "OPH/"))) by reflexivity.
  rewrite A, status_bind, R. reflexivity.
Qed.

Lemma topology_rejected :
  status text <> lit "OPOK" ->
  fst (__get_radiator_ids self sock) = Ok []
  /\ fst (__get_radiators_per_zone self sock) = Ok [].
Proof.
  intros R.
  rewrite __get_radiator_ids_run, __get_radiators_per_zone_run, A.
  cbn [fst rbind]. now rewrite (topology_of_rejected _ R).
Qed.

End NotAccepted.

Section UnitNotAccepted.
Context {ucd : UnicodeData}.

Variables (rad : Radiator) (sock : Socket) (text : str).
Hypothesis A : answer (next_outcome sock) = Ok text.
Hypothesis R : status text <> lit "OK".

Lemma get_temperature_rejected : fst (get_temperature rad sock) = Ok None.
Proof.
  apply str_eqb_neq in R. unfold get_temperature.
  rewrite (exchange_bind _ _ (wire (read_command (rad_id rad) 1 "T")))
    by apply encode_ascii, is_ascii_read_T.
  rewrite A, status_bind, R. reflexivity.
Qed.

Lemma __get_fw_rejected : fst (__get_fw (_hub rad) (rad_id rad) sock) = Ok (None, None).
Proof.
  apply str_eqb_neq in R. rewrite __get_fw_run, A. cbn [fst rbind].
  unfold radiator_fw_of. now rewrite R.
Qed.

Lemma set_temperature_loop_rejected (target i : Z) (units : list Z) (okay : bool) :
  set_temperature_loop rad target (i :: units) okay sock
  = set_temperature_loop rad target units false
      (exchanged (wire (write_command (rad_id rad) i target)) (address (_hub rad)) sock).
Proof.
  apply str_eqb_neq in R. cbn [set_temperature_loop].
  rewrite (exchange_bind _ _ (wire (write_command (rad_id rad) i target)))
    by apply encode_ascii, is_ascii_write_command.
  rewrite A, status_bind, R. reflexivity.
Qed.

Lemma get_energy_usage_loop_rejected (i : Z) (units : list Z) (total : float)
  (okay : bool) :
  get_energy_usage_loop rad (i :: units) total okay sock
  = get_energy_usage_loop rad units total false
      (exchanged (wire (read_command (rad_id rad) i "UD")) (address (_hub rad)) sock).
Proof.
  apply str_eqb_neq in R. cbn [get_energy_usage_loop].
  rewrite (exchange_bind _ _ (wire (read_command (rad_id rad) i "UD")))
    by apply encode_ascii, is_ascii_read_UD.
  rewrite A, status_bind, R. reflexivity.
Qed.

Lemma __get_power_loop_rejected (i : Z) (units : list Z) (total : Z) :
  __get_power_loop (_hub rad) (rad_id rad) (i :: units) total sock
  = __get_power_loop (_hub rad) (rad_id rad) units total
      (exchanged (wire (read_command (rad_id rad) i "UD")) (address (_hub rad)) sock).
Proof.
  apply str_eqb_neq in R. cbn [__get_power_loop].
  rewrite (exchange_bind _ _ (wire (read_command (rad_id rad) i "UD")))
    by apply encode_ascii, is_ascii_read_UD.
  rewrite A, status_bind, R. reflexivity.
Qed.

End UnitNotAccepted.

(* ================================================================== *)
(** * Timeouts *)
(* ================================================================== *)

Section Silence.
Context {ucd : UnicodeData}.

Lemma silent_next (sock : Socket) : silent sock -> next_outcome sock = TimedOut.
Proof.
  unfold silent, next_outcome. destruct (incoming sock); [reflexivity|].
  intros H. inversion H. congruence.
Qed.

Lemma silent_exchanged (p : bytes) (a : Address) (sock : Socket) :
  silent sock -> silent (exchanged p a sock).
Proof.
  unfold silent, exchanged; cbn [incoming].
  destruct (incoming sock); cbn [tl]; [auto|]. intros H. now inversion H.
Qed.

Lemma answer_timeout (sock : Socket) :
  next_outcome sock = TimedOut ->
  answer (next_outcome sock) = Ok (lit "TIMEOUT").
Proof. now intros ->. Qed.

Lemma timeout_not_OPOK : status (lit "TIMEOUT") <> lit "OPOK".
Proof. discriminate. Qed.

Lemma timeout_not_OK : status (lit "TIMEOUT") <> lit "OK".
Proof. discriminate. Qed.

Lemma set_temperature_loop_silent (rad : Radiator) (target : Z) (units : list Z) :
  forall (okay : bool) (sock : Socket),
    silent sock ->
    fst (set_temperature_loop rad target units okay sock)
    = Ok match units with [] => okay | _ :: _ => false end.
Proof.
  induction units as [|i units IH]; intros okay sock S; [reflexivity|].
  rewrite (set_temperature_loop_rejected rad sock (lit "TIMEOUT")
             (answer_timeout sock (silent_next sock S)) timeout_not_OK).
  rewrite IH by now apply silent_exchanged. now destruct units.
Qed.

Lemma get_energy_usage_loop_silent (rad : Radiator) (units : list Z) :
  forall (total : float) (okay : bool) (sock : Socket),
    silent sock ->
    fst (get_energy_usage_loop rad units total okay sock)
    = Ok (total, match units with [] => okay | _ :: _ => false end).
Proof.
  induction units as [|i units IH]; intros total okay sock S; [reflexivity|].
  rewrite (get_energy_usage_loop_rejected rad sock (lit "TIMEOUT")
             (answer_timeout sock (silent_next sock S)) timeout_not_OK).
  rewrite IH by now apply silent_exchanged. now destruct units.
Qed.

Lemma __get_power_loop_silent (rad : Radiator) (units : list Z) :
  forall (total : Z) (sock : Socket),
    silent sock ->
    fst (__get_power_loop (_hub rad) (rad_id rad) units total sock) = Ok total.
Proof.
  induction units as [|i units IH]; intros total sock S; [reflexivity|].
  rewrite (__get_power_loop_rejected rad sock (lit "TIMEOUT")
             (answer_timeout sock (silent_next sock S)) timeout_not_OK).
  apply IH. now apply silent_exchanged.
Qed.

(** C7.  When the exchange at hand times out, [send_command] returns the
    text [TIMEOUT] and raises nothing, and each caller takes that text as a
    failure: [ready] gives false; [get_fw], [get_nw], [get_time] and
    [get_temperature] give [None]; the two topology queries give the empty
    list; the radiator's [__get_fw] gives two [None] fields; the loops of
    [set_temperature], [get_energy_usage] and [__get_power] go on to the next
    unit with the flag false and the total unchanged.  When no exchange is
    ever answered, [set_temperature] of a known zone gives false,
    [get_energy_usage] gives [None] and [__get_power] gives 0. *)
Theorem timeout_is_failure
  (self : Address) (rad : Radiator) (target : Z) (sock : Socket) :
  next_outcome sock = TimedOut ->
  (forall command payload,
     encode command = Ok payload ->
     send_command self command sock
     = (Ok (lit "TIMEOUT"), exchanged payload self sock))
  /\ fst (ready self sock) = Ok false
  /\ fst (get_fw self sock) = Ok None
  /\ fst (get_nw self sock) = Ok None
  /\ fst (get_time self sock) = Ok None
  /\ fst (__get_radiator_ids self sock) = Ok []
  /\ fst (__get_radiators_per_zone self sock) = Ok []
  /\ fst (get_temperature rad sock) = Ok None
  /\ fst (__get_fw (_hub rad) (rad_id rad) sock) = Ok (None, None)
  /\ (forall i units okay,
        set_temperature_loop rad target (i :: units) okay sock
        = set_temperature_loop rad target units false
            (exchanged (wire (write_command (rad_id rad) i target))
                       (address (_hub rad)) sock))
  /\ (forall i units total okay,
        get_energy_usage_loop rad (i :: units) total okay sock
        = get_energy_usage_loop rad units total false
            (exchanged (wire (read_command (rad_id rad) i "UD"))
                       (address (_hub rad)) sock))
  /\ (forall i units total,
        __get_power_loop (_hub rad) (rad_id rad) (i :: units) total sock
        = __get_power_loop (_hub rad) (rad_id rad) units total
            (exchanged (wire (read_command (rad_id rad) i "UD"))
                       (address (_hub rad)) sock))
  /\ (silent sock ->
      forall n, rad_count (_hub rad) (rad_id rad) = Ok n ->
        fst (set_temperature rad target sock) = Ok false
        /\ fst (get_energy_usage rad sock) = Ok None
        /\ fst (__get_power (_hub rad) (rad_id rad) sock) = Ok 0%Z).
Proof.
  intros T. pose proof (answer_timeout sock T) as A.
  pose proof timeout_not_OPOK as N1. pose proof timeout_not_OK as N2.
  repeat match goal with |- _ /\ _ => split end.
  - intros command payload E.
    rewrite (send_command_exchange self command payload sock E), A.
    reflexivity.
  - rewrite (ready_run self sock _ A). reflexivity.
  - exact (get_fw_rejected self sock _ A N1).
  - exact (get_nw_rejected self sock _ A N1).
  - exact (get_time_rejected self sock _ A N1).
  - exact (proj1 (topology_rejected self sock _ A N1)).
  - exact (proj2 (topology_rejected self sock _ A N1)).
  - exact (get_temperature_rejected rad sock _ A N2).
  - exact (__get_fw_rejected rad sock _ A N2).
  - intros. exact (set_temperature_loop_rejected rad sock _ A N2 _ _ _ _).
  - intros. exact (get_energy_usage_loop_rejected rad sock _ A N2 _ _ _ _).
  - intros. exact (__get_power_loop_rejected rad sock _ A N2 _ _ _).
  - intros S n Hn. split; [|split].
    + unfold set_temperature, bind, lift. rewrite Hn.
      pose proof (set_temperature_loop_silent rad target (range 1 (n + 1))
                    false sock S) as L.
      destruct (set_temperature_loop _ _ _ _ _) as [r s]. cbn [fst] in *.
      rewrite L. now destruct (range 1 (n + 1)).
    + unfold get_energy_usage. unfold bind at 1, lift at 1. rewrite Hn.
      unfold bind.
      pose proof (get_energy_usage_loop_silent rad (range 1 (n + 1))
                    (S754_zero false) false sock S) as L.
      destruct (get_energy_usage_loop _ _ _ _ _) as [r s]. cbn [fst] in *.
      rewrite L. cbn [fst snd]. now destruct (range 1 (n + 1)).
    + unfold __get_power, bind, lift. rewrite Hn.
      apply (__get_power_loop_silent rad). exact S.
Qed.

End Silence.

Lemma int_ascii_any_database (u1 u2 : UnicodeData) (s : str) :
  is_ascii s = true -> @int u1 s = @int u2 s.
Proof. intros H. unfold int, transform. now rewrite H. Qed.

(* ================================================================== *)
(** * A success token does not make a response well-formed *)
(* ================================================================== *)

Section Malformed.
Context {ucd : UnicodeData}.

(** C10.  There are responses with the success token that make the decoding
    method raise: [OPOK] alone for [get_fw] and too few octets for [get_nw]
    raise [IndexError], a field that is no integer raises [ValueError] in
    [__get_radiator_ids], and [OK,21] raises [IndexError] in
    [get_temperature].  A text whose status token is not the success token
    never raises: it gives [None], false or the empty list. *)
Theorem malformed_success_raises (self : Address) :
  fst (get_fw self (fresh [datagram "OPOK"])) = Raise IndexError
  /\ fst (__get_radiator_ids self (fresh [datagram "OPOK,0,x"])) = Raise ValueError
  /\ fst (get_nw self (fresh [datagram "OPOK,0,192,168,1"])) = Raise IndexError
  /\ fst (get_temperature zone7 (fresh [datagram "OK,21"])) = Raise IndexError
  /\ (forall sock text,
        answer (next_outcome sock) = Ok text ->
        status text <> lit "OPOK" ->
        fst (get_fw self sock) = Ok None
        /\ fst (get_nw self sock) = Ok None
        /\ fst (get_time self sock) = Ok None
        /\ fst (ready self sock) = Ok false
        /\ fst (__get_radiator_ids self sock) = Ok []
        /\ fst (__get_radiators_per_zone self sock) = Ok [])
  /\ (forall rad sock text,
        answer (next_outcome sock) = Ok text ->
        status text <> lit "OK" ->
        fst (get_temperature rad sock) = Ok None
        /\ fst (__get_fw (_hub rad) (rad_id rad) sock) = Ok (None, None)).
Proof.
  repeat match goal with |- _ /\ _ => split end.
  - vm_compute. reflexivity.
  - rewrite __get_radiator_ids_run. vm_compute. reflexivity.
  - vm_compute. reflexivity.
  - vm_compute. reflexivity.
  - intros sock text A R.
    pose proof (topology_rejected self sock text A R) as [T2 T3].
    split; [exact (get_fw_rejected self sock text A R)|].
    split; [exact (get_nw_rejected self sock text A R)|].
    split; [exact (get_time_rejected self sock text A R)|].
    split; [|split; assumption].
    rewrite (ready_run self sock text A). cbn [fst].
    apply str_eqb_neq in R. now rewrite R.
  - intros rad sock text A R. split.
    + exact (get_temperature_rejected rad sock text A R).
    + exact (__get_fw_rejected rad sock text A R).
Qed.

End Malformed.

(* ================================================================== *)
(** * The statements at concrete inputs *)
(* ================================================================== *)


(** Unit 1 answers [ERR], unit 2 answers [OK]: true. *)
Example set_temperature_first_unit_ignored :
  fst (set_temperature zone7 21 (fresh [datagram "ERR"; datagram "OK"]))
  = Ok true.
Proof. vm_compute. reflexivity. Qed.


(** A hub that answers all three queries, with two zones. *)
Lemma hub_topology_lengths_witness :
  exists hub sock',
    HeatappHub.__init__ (ucd := ascii_only) (lit "192.168.1.20") 3000
      (fresh [datagram "OPOK,1.2,site,idu"; datagram "OPOK,0,5,7";
              datagram "OPOK,0,1,2"])
    = (Ok hub, sock')
    /\ hub = zone_hub
    /\ exists t1 t2 t3,
         map answer
           (upcoming 3 [datagram "OPOK,1.2,site,idu"; datagram "OPOK,0,5,7";
                        datagram "OPOK,0,1,2"])
         = [Ok t1; Ok t2; Ok t3]
         /\ List.length (radiator_ids hub) = topology_count t2
         /\ List.length (radiators_per_zone hub) = topology_count t3
         /\ (List.length (radiator_ids hub) = List.length (radiators_per_zone hub)
             <-> topology_count t2 = topology_count t3)
         /\ (status t2 <> lit "OPOK" -> radiator_ids hub = [])
         /\ (status t3 <> lit "OPOK" -> radiators_per_zone hub = []).
Proof.
  eexists. eexists. split; [vm_compute; reflexivity|]. split; [reflexivity|].
  exact (hub_topology_lengths (ucd := ascii_only) (lit "192.168.1.20") 3000
           (fresh [datagram "OPOK,1.2,site,idu"; datagram "OPOK,0,5,7";
                   datagram "OPOK,0,1,2"])
           _ zone_hub eq_refl).
Defined.

(** C3 as stated fails: the two sequences differ in length when [OPS2/] is
    accepted and [OPS3/] times out, and when both are accepted with
    different numbers of fields. *)
Lemma hub_topology_lengths_differ :
  (exists hub sock',
     HeatappHub.__init__ (ucd := ascii_only) (lit "192.168.1.20") 3000
       (fresh [datagram "OPOK,1.2,site,idu"; datagram "OPOK,0,5,7"; TimedOut])
     = (Ok hub, sock')
     /\ List.length (radiator_ids hub) = 2%nat
     /\ List.length (radiators_per_zone hub) = 0%nat)
  /\ (exists hub sock',
        HeatappHub.__init__ (ucd := ascii_only) (lit "192.168.1.20") 3000
          (fresh [datagram "OPOK,1.2,site,idu"; datagram "OPOK,0,5,7";
                  datagram "OPOK,0,1"])
        = (Ok hub, sock')
        /\ List.length (radiator_ids hub) = 2%nat
        /\ List.length (radiators_per_zone hub) = 1%nat).
Proof.
  split; eexists; eexists; (split; [vm_compute; reflexivity|]);
    split; reflexivity.
Qed.

(** Zone 9 is not in the topology: the [?F] read goes out, then the lookup
    fails. *)
Lemma radiator_init_order_witness :
  exists e sock',
    HeatappRadiator.__init__ (ucd := ascii_only) zone_hub 9
      (fresh [datagram "OK,2.0,SN9"])
    = (Raise e, sock')
    /\ sent sock' = [read_datagram zone_hub 9 "F" 1].
Proof.
  apply (proj1 (proj2 (radiator_init_order (ucd := ascii_only) zone_hub 9
                         (fresh [datagram "OK,2.0,SN9"])))).
  cbn. intuition discriminate.
Defined.

(** C4 as stated fails: for a [rad_id] that is absent the [?F] read has been
    sent before the lookup fails. *)
Lemma radiator_init_reads_before_lookup :
  index 9 (radiator_ids zone_hub) = Raise ValueError
  /\ exists sock',
       HeatappRadiator.__init__ (ucd := ascii_only) zone_hub 9
         (fresh [datagram "OK,2.0,SN9"])
       = (Raise ValueError, sock')
       /\ sent sock' = [(wire (lit "R#9#1#0#0*?F/"), hub_address)].
Proof.
  split; [reflexivity|]. eexists. split; vm_compute; reflexivity.
Qed.

(** 12:30:45 on 6 July 2003, sent as [12,30,45,x,6,7,3]. *)
Lemma get_time_fields_witness :
  get_time (ucd := ascii_only) hub_address (fresh [datagram "OPOK,12,30,45,5,6,7,3"])
  = (Ok (Some (mk_datetime 2003 7 6 12 30 45)),
     {| incoming := []; sent := [(wire (lit "OPH/"), hub_address)] |}).
Proof.
  exact (get_time_fields (ucd := ascii_only) hub_address
           (fresh [datagram "OPOK,12,30,45,5,6,7,3"])
           (lit "OPOK,12,30,45,5,6,7,3")
           [lit "12"; lit "30"; lit "45"; lit "5"; lit "6"; lit "7"; lit "3"]
           12 30 45 5 6 7 3 [] eq_refl eq_refl eq_refl eq_refl).
Defined.

(** C5 as stated fails: with the fields read as hour, minute, second, day,
    month, year offset, weekday, the text [12,30,45,5,6,7,3] names 5 June
    2007, but [get_time] returns 6 July 2003. *)
Lemma get_time_field_order :
  fst (get_time (ucd := ascii_only) hub_address
         (fresh [datagram "OPOK,12,30,45,5,6,7,3"]))
  = Ok (Some (mk_datetime 2003 7 6 12 30 45))
  /\ mk_datetime 2003 7 6 12 30 45 <> mk_datetime (2000 + 7) 6 5 12 30 45.
Proof. split; [vm_compute; reflexivity | discriminate]. Qed.

(** One [0x19] and two [0x00] after [OK,21,23]. *)
Lemma send_command_strips_witness :
  fst (send_command hub_address (lit "R#7#1#0#0*?T/")
         (fresh [Reply (wire (lit "OK,21,23") ++ [x19; x00; x00])]))
  = Ok (lit "OK,21,23").
Proof.
  exact (proj2 (send_command_strips hub_address (lit "R#7#1#0#0*?T/")
                  (wire (lit "R#7#1#0#0*?T/"))
                  (wire (lit "OK,21,23") ++ [x19; x00; x00]) [] []
                  (lit "OK,21,23" ++ [25; 0; 0]%N) eq_refl eq_refl)
               (lit "OK,21,23") 1%nat 2%nat eq_refl eq_refl eq_refl).
Defined.

(** C6 as stated fails: after [0x00] followed by [0x19] the [0x00] stays, and
    the field it ends is then no integer. *)
Lemma send_command_keeps_interleaved_padding :
  fst (send_command hub_address (lit "R#7#1#0#0*?T/")
         (fresh [Reply (wire (lit "OK,21,23") ++ [x00; x19])]))
  = Ok (lit "OK,21,23" ++ [0%N])
  /\ ends_in 0 (lit "OK,21,23" ++ [0%N]) = true
  /\ fst (get_temperature (ucd := ascii_only) zone7
            (fresh [Reply (wire (lit "OK,21,23") ++ [x00; x19])]))
     = Raise ValueError.
Proof. repeat split; vm_compute; reflexivity. Qed.

(** C7 as stated fails: in a zone of two units the exchange of the first
    unit times out and that of the second is accepted; [set_temperature]
    gives true, [get_energy_usage] a consumption and [__get_power] the power
    of the second unit. *)
Lemma timeout_of_earlier_unit_is_overwritten :
  next_outcome (fresh [TimedOut; datagram "OK"]) = TimedOut
  /\ fst (set_temperature zone7 21 (fresh [TimedOut; datagram "OK"])) = Ok true
  /\ (exists e,
        fst (get_energy_usage (ucd := ascii_only) zone7
               (fresh [TimedOut; datagram "OK,1000,1000"]))
        = Ok (Some e)
        /\ float_of_int 100 = Ok e)
  /\ fst (__get_power (ucd := ascii_only) zone_hub 7
            (fresh [TimedOut; datagram "OK,1000,1000"]))
     = Ok 1000%Z.
Proof.
  split; [reflexivity|]. split; [vm_compute; reflexivity|].
  split; [|vm_compute; reflexivity].
  eexists. split; vm_compute; reflexivity.
Qed.

(** A hub that never answers. *)
Lemma timeout_is_failure_witness :
  fst (ready hub_address (fresh [TimedOut; TimedOut])) = Ok false
  /\ fst (get_temperature (ucd := ascii_only) zone7 (fresh [TimedOut; TimedOut]))
     = Ok None
  /\ fst (set_temperature zone7 21 (fresh [TimedOut; TimedOut])) = Ok false
  /\ fst (get_energy_usage (ucd := ascii_only) zone7 (fresh [TimedOut; TimedOut]))
     = Ok None.
Proof.
  destruct (timeout_is_failure (ucd := ascii_only) hub_address zone7 21
              (fresh [TimedOut; TimedOut]) eq_refl)
    as (_ & R & _ & _ & _ & _ & _ & T & _ & _ & _ & _ & H).
  destruct (H (Forall_cons _ eq_refl (Forall_cons _ eq_refl (Forall_nil _)))
              2%Z eq_refl) as (S & E & _).
  repeat split; assumption.
Defined.

(** A hub that does not answer the handshake. *)
Lemma hub_init_connection_error_witness :
  fst (HeatappHub.__init__ (ucd := ascii_only) (lit "192.168.1.20") 3000
         (fresh [TimedOut; datagram "OPOK,0,5,7"; datagram "OPOK,0,1,2"]))
  = Raise ConnectionError.
Proof.
  apply (proj1 (hub_init_connection_error (ucd := ascii_only)
                  (lit "192.168.1.20") 3000
                  (fresh [TimedOut; datagram "OPOK,0,5,7"; datagram "OPOK,0,1,2"]))).
  exact rejected_timeout.
Defined.

(* ================================================================== *)
(** * Round trips of the runtime *)
(* ================================================================== *)

Lemma uint_value_acc (d : Decimal.uint) (p : positive) :
  uint_value d (Zpos p) = Zpos (Pos.of_uint_acc d p).
Proof.
  revert p. induction d; intros p; cbn [uint_value Pos.of_uint_acc];
    [reflexivity | rewrite <- IHd; f_equal; lia ..].
Qed.

Lemma uint_value_0 (d : Decimal.uint) : uint_value d 0 = Z.of_uint d.
Proof.
  unfold Z.of_uint.
  induction d; cbn [uint_value Pos.of_uint]; try reflexivity; try exact IHd;
    rewrite Z.mul_0_r, Z.add_0_l; apply uint_value_acc.
Qed.

Lemma scan_uint (d : Decimal.uint) (acc : Z) :
  scan (lit (NilEmpty.string_of_uint d)) false acc = Some (uint_value d acc, []).
Proof.
  revert acc. induction d; intros acc; [reflexivity | apply IHd ..].
Qed.

Lemma digits_uint (d : Decimal.uint) :
  forallb sign_or_digit (lit (NilEmpty.string_of_uint d)) = true.
Proof. induction d; [reflexivity | exact IHd ..]. Qed.

Lemma digit_cases (c : N) :
  ((48 <=? c) && (c <=? 57))%N = true ->
  c = 48%N \/ c = 49%N \/ c = 50%N \/ c = 51%N \/ c = 52%N \/ c = 53%N
  \/ c = 54%N \/ c = 55%N \/ c = 56%N \/ c = 57%N.
Proof.
  intros H. apply andb_prop in H as [H1 H2].
  apply N.leb_le in H1, H2. lia.
Qed.

Lemma PyLong_FromString_digits (c : N) (s : str) (v : Z) :
  ((48 <=? c) && (c <=? 57))%N = true ->
  scan (c :: s) false 0 = Some (v, []) ->
  PyLong_FromString (c :: s) = Some v
  /\ PyLong_FromString (45%N :: c :: s) = Some (- v)%Z.
Proof.
  intros D S. unfold PyLong_FromString.
  destruct (digit_cases c D) as [H|[H|[H|[H|[H|[H|[H|[H|[H|H]]]]]]]]];
    subst c; cbn [skip_space Py_ISSPACE]; cbn -[scan]; rewrite S; split; reflexivity.
Qed.

Lemma string_of_uint_head (d : Decimal.uint) :
  exists c s,
    lit (NilZero.string_of_uint d) = c :: s
    /\ ((48 <=? c) && (c <=? 57))%N = true.
Proof. destruct d; eexists; eexists; split; reflexivity. Qed.

Lemma scan_string_of_uint (d : Decimal.uint) :
  scan (lit (NilZero.string_of_uint d)) false 0 = Some (Z.of_uint d, []).
Proof.
  rewrite <- uint_value_0. destruct d; try reflexivity; apply scan_uint.
Qed.

Lemma int_str_of_int {ucd : UnicodeData} (z : Z) : int (str_of_int z) = Ok z.
Proof.
  unfold int, transform. rewrite is_ascii_str_of_int.
  rewrite <- (DecimalZ.of_to z) at 2.
  unfold str_of_int, NilZero.string_of_int.
  destruct (Z.to_int z) as [d|d]; cbn [Z.of_int];
    destruct (string_of_uint_head d) as (c & s & E & D);
    pose proof (scan_string_of_uint d) as S; rewrite E in S;
    destruct (PyLong_FromString_digits c s _ D S) as [P N].
  - rewrite E, P. reflexivity.
  - change (lit (String "-" (NilZero.string_of_uint d)))
      with (45%N :: lit (NilZero.string_of_uint d)).
    rewrite E, N. reflexivity.
Qed.

Lemma str_of_int_chars (z : Z) : forallb sign_or_digit (str_of_int z) = true.
Proof.
  unfold str_of_int, NilZero.string_of_int, NilZero.string_of_uint.
  destruct (Z.to_int z) as [d|d]; destruct d; try reflexivity;
    try apply (digits_uint (_ d));
    change (forallb sign_or_digit (lit (String "-" ?s)))
      with (forallb sign_or_digit (lit s));
    apply (digits_uint (_ d)).
Qed.

Lemma str_of_int_cons (z : Z) : exists c s, str_of_int z = c :: s.
Proof.
  unfold str_of_int, NilZero.string_of_int.
  destruct (Z.to_int z) as [d|d].
  - destruct (string_of_uint_head d) as (c & s & E & _). eauto.
  - eexists; eexists; reflexivity.
Qed.

Lemma str_of_int_inj (a b : Z) : str_of_int a = str_of_int b -> a = b.
Proof.
  intros H.
  pose proof (int_str_of_int (ucd := ascii_only) a) as A.
  pose proof (int_str_of_int (ucd := ascii_only) b) as B.
  rewrite H in A. congruence.
Qed.

Lemma split_no_sep (sep : N) (s : str) : mem sep s = false -> split sep s = [s].
Proof.
  induction s as [|c s IH]; cbn [split mem existsb]; [reflexivity|].
  intros H. apply orb_false_elim in H as [H1 H2].
  rewrite N.eqb_sym, H1. unfold mem in IH. now rewrite (IH H2).
Qed.

Lemma split_app (sep : N) (f rest : str) :
  mem sep f = false -> split sep (f ++ sep :: rest) = f :: split sep rest.
Proof.
  induction f as [|c f IH]; cbn [split app mem existsb].
  - intros _. now rewrite N.eqb_refl.
  - intros H. apply orb_false_elim in H as [H1 H2].
    rewrite N.eqb_sym, H1. unfold mem in IH. now rewrite (IH H2).
Qed.

Lemma split_join (sep : N) (f : str) (fs : list str) :
  Forall (fun x => mem sep x = false) (f :: fs) ->
  split sep (join sep (f :: fs)) = f :: fs.
Proof.
  revert f. induction fs as [|g fs IH]; intros f H.
  - apply split_no_sep. now inversion H.
  - inversion H as [|x l Hf Hrest]; subst.
    change (join sep (f :: g :: fs)) with (f ++ sep :: join sep (g :: fs)).
    rewrite (split_app _ _ _ Hf). f_equal. exact (IH g Hrest).
Qed.

Lemma mem_sign_or_digit (c : N) (s : str) :
  sign_or_digit c = false -> forallb sign_or_digit s = true -> mem c s = false.
Proof.
  intros Hc. induction s as [|x s IH]; cbn [forallb mem existsb]; [reflexivity|].
  intros H. apply andb_prop in H as [Hx Hs]. unfold mem in IH.
  rewrite (IH Hs), orb_false_r. apply N.eqb_neq. intros ->. congruence.
Qed.

Lemma mem_app (c : N) (a b : str) : mem c (a ++ b) = mem c a || mem c b.
Proof. unfold mem. apply existsb_app. Qed.

Lemma ends_in_app (c : N) (a b : str) :
  b <> [] -> ends_in c (a ++ b) = ends_in c b.
Proof.
  intros Hb. induction a as [|x a IH]; [reflexivity|].
  cbn [app ends_in]. rewrite IH.
  destruct (a ++ b) eqn:E; [|reflexivity].
  apply app_eq_nil in E as [_ E]. contradiction.
Qed.

Lemma ends_in_mem (c : N) (s : str) : mem c s = false -> ends_in c s = false.
Proof.
  induction s as [|x s IH]; cbn [mem existsb ends_in]; [reflexivity|].
  intros H. apply orb_false_elim in H as [H1 H2]. unfold mem in IH.
  destruct s; [now rewrite N.eqb_sym | exact (IH H2)].
Qed.

Lemma byte_of_to_N (c : N) : (c <? 128)%N = true -> Byte.to_N (byte_of c) = c.
Proof.
  intros H. apply N.ltb_lt in H. unfold byte_of.
  destruct (Byte.of_N c) eqn:E.
  - now apply Byte.to_of_N.
  - apply Byte.of_N_None_iff in E. lia.
Qed.

Lemma decode_wire (s : str) : is_ascii s = true -> decode (wire s) = Ok s.
Proof.
  intros H. unfold decode, wire.
  assert (U : utf8_decode (map Byte.to_N (map byte_of s)) = Some s).
  { induction s as [|c s IH]; [reflexivity|].
    cbn [is_ascii forallb] in H. apply andb_prop in H as [Hc Hs].
    cbn [map utf8_decode]. rewrite (byte_of_to_N _ Hc), Hc, (IH Hs).
    reflexivity. }
  now rewrite U.
Qed.

Lemma is_ascii_repeat (c : N) (k : nat) :
  (c <? 128)%N = true -> is_ascii (repeat c k) = true.
Proof.
  intros H. induction k as [|k IH]; [reflexivity|].
  cbn [repeat is_ascii forallb]. now rewrite H.
Qed.

(** An ASCII text that ends in neither padding byte, followed by [0x19]s and
    then [0x00]s, within the 1024 bytes [recvfrom] reads: [send_command]
    gives the text back. *)
Lemma answer_padded (text : str) (a b : nat) :
  is_ascii text = true ->
  ends_in 0 text = false ->
  ends_in 25 text = false ->
  (List.length text + a + b <= 1024)%nat ->
  answer (Reply (wire (text ++ repeat 25%N a ++ repeat 0%N b))) = Ok text.
Proof.
  intros A E0 E25 L. cbn [answer].
  rewrite firstn_all2
    by (unfold wire; rewrite length_map, !length_app, !repeat_length; lia).
  rewrite decode_wire
    by (rewrite !is_ascii_app, A, !is_ascii_repeat; reflexivity).
  cbn [rbind]. f_equal.
  rewrite app_assoc, rstrip_repeat.
  assert (K : rstrip [0%N] (text ++ repeat 25%N a) = text ++ repeat 25%N a).
  { apply rstrip_keeps. destruct a as [|a].
    - cbn [repeat]. rewrite app_nil_r. exact E0.
    - apply ends_in_app_repeat. discriminate. }
  rewrite K, rstrip_repeat. now apply rstrip_keeps.
Qed.

Lemma clean_str_of_int (z : Z) : clean (str_of_int z) = true.
Proof.
  unfold clean. pose proof (str_of_int_chars z) as D.
  rewrite is_ascii_str_of_int.
  rewrite (mem_sign_or_digit comma _ eq_refl D).
  rewrite (mem_sign_or_digit 0%N _ eq_refl D).
  rewrite (mem_sign_or_digit 25%N _ eq_refl D). reflexivity.
Qed.

Lemma clean_parts (f : str) :
  clean f = true ->
  is_ascii f = true /\ mem comma f = false /\ mem 0%N f = false
  /\ mem 25%N f = false.
Proof.
  unfold clean. intros H.
  apply andb_prop in H as [H H4]. apply andb_prop in H as [H H3].
  apply andb_prop in H as [H1 H2].
  apply negb_true_iff in H2, H3, H4. auto.
Qed.

Lemma join_cons (sep : N) (f g : str) (fs : list str) :
  join sep (f :: g :: fs) = f ++ sep :: join sep (g :: fs).
Proof. reflexivity. Qed.

Lemma join_clean (f : str) (fs : list str) :
  forallb clean (f :: fs) = true ->
  is_ascii (join comma (f :: fs)) = true
  /\ mem 0%N (join comma (f :: fs)) = false
  /\ mem 25%N (join comma (f :: fs)) = false.
Proof.
  revert f. induction fs as [|g fs IH]; intros f H;
    cbn [forallb] in H; apply andb_prop in H as [Hf Hrest];
    destruct (clean_parts f Hf) as (A & _ & Z0 & Z25).
  - cbn [join]. auto.
  - rewrite join_cons. destruct (IH g Hrest) as (A' & Z0' & Z25').
    change (f ++ comma :: join comma (g :: fs))
      with (f ++ [comma] ++ join comma (g :: fs)).
    rewrite !is_ascii_app, !mem_app, A, A', Z0, Z0', Z25, Z25'.
    repeat split; reflexivity.
Qed.

Lemma split_reply (f : str) (fs : list str) :
  forallb clean (f :: fs) = true ->
  split comma (join comma (f :: fs)) = f :: fs.
Proof.
  intros H. apply split_join. apply Forall_forall. intros x Hx.
  rewrite forallb_forall in H. now destruct (clean_parts x (H x Hx)) as (_ & ? & _).
Qed.

Lemma answer_reply (f : str) (fs : list str) (a b : nat) :
  forallb clean (f :: fs) = true ->
  (List.length (join comma (f :: fs)) + a + b <= 1024)%nat ->
  answer (reply_of (f :: fs) a b) = Ok (join comma (f :: fs)).
Proof.
  intros H L. destruct (join_clean f fs H) as (A & Z0 & Z25).
  apply answer_padded; auto using ends_in_mem.
Qed.

Lemma comprehension_int_roundtrip {ucd : UnicodeData} (zs : list Z) :
  comprehension int (map str_of_int zs) = Ok zs.
Proof.
  induction zs as [|z zs IH]; [reflexivity|].
  cbn [map comprehension]. rewrite int_str_of_int, IH. reflexivity.
Qed.

Lemma forallb_clean_ints (zs : list Z) : forallb clean (map str_of_int zs) = true.
Proof.
  induction zs as [|z zs IH]; [reflexivity|].
  cbn [map forallb]. now rewrite clean_str_of_int, IH.
Qed.

(* ================================================================== *)
(** * The queries, by the text of their exchange *)
(* ================================================================== *)

Section Queries.
Context {ucd : UnicodeData}.

Lemma lift_chain {A B} (r : result A) (k : A -> M B) (k' : A -> result B)
  (sock : Socket) :
  (forall a, k a sock = (k' a, sock)) ->
  (x <- lift r ;; k x) sock = (rbind r k', sock).
Proof. intros H. rewrite lift_bind. destruct r; [apply H | reflexivity]. Qed.

Lemma get_nw_run (self : Address) (sock : Socket) :
  get_nw self sock
  = (rbind (answer (next_outcome sock)) nw_of,
     exchanged (wire (lit "OPS38/")) self sock).
Proof.
  unfold get_nw.
  rewrite (exchange_bind _ _ (wire (lit "OPS38/"))) by reflexivity.
  destruct (answer (next_outcome sock)) as [text|e]; [|reflexivity].
  rewrite status_bind. unfold nw_of. cbn [rbind].
  destruct (str_eqb (status text) (lit "OPOK")); [|reflexivity].
  repeat (apply lift_chain; intros ?). reflexivity.
Qed.

Lemma get_time_run (self : Address) (sock : Socket) :
  get_time self sock
  = (rbind (answer (next_outcome sock)) time_of,
     exchanged (wire (lit "OPH/")) self sock).
Proof.
  unfold get_time.
  rewrite (exchange_bind _ _ (wire (lit "OPH/"))) by reflexivity.
  destruct (answer (next_outcome sock)) as [text|e]; [|reflexivity].
  rewrite status_bind. unfold time_of. cbn [rbind].
  destruct (str_eqb (status text) (lit "OPOK")); [|reflexivity].
  repeat (apply lift_chain; intros ?). reflexivity.
Qed.

Lemma get_temperature_run (rad : Radiator) (sock : Socket) :
  get_temperature rad sock
  = (rbind (answer (next_outcome sock)) temperature_of,
     exchanged (wire (read_command (rad_id rad) 1 "T")) (address (_hub rad)) sock).
Proof.
  unfold get_temperature.
  rewrite (exchange_bind _ _ (wire (read_command (rad_id rad) 1 "T")))
    by apply encode_ascii, is_ascii_read_T.
  destruct (answer (next_outcome sock)) as [text|e]; [|reflexivity].
  rewrite status_bind. unfold temperature_of. cbn [rbind].
  destruct (str_eqb (status text) (lit "OK")); [|reflexivity].
  repeat (apply lift_chain; intros ?). reflexivity.
Qed.

Lemma ready_any (self : Address) (sock : Socket) :
  ready self sock
  = (rbind (answer (next_outcome sock))
       (fun text => Ok (str_eqb (status text) (lit "OPOK"))),
     exchanged (wire (lit "OPS1/")) self sock).
Proof.
  unfold ready.
  rewrite (exchange_bind _ _ (wire (lit "OPS1/"))) by reflexivity.
  destruct (answer (next_outcome sock)) as [text|e]; [|reflexivity].
  rewrite status_bind. cbn [rbind].
  destruct (str_eqb (status text) (lit "OPOK")); reflexivity.
Qed.

(** X3.  No query is ever repeated: each of the hub's queries and each of
    the radiator's single reads sends its one datagram and takes one
    outcome off the socket, whatever that outcome is and whether the method
    returns or raises. *)
Theorem one_exchange_per_query (self : Address) (rad : Radiator) (sock : Socket) :
  snd (ready self sock) = exchanged (wire (lit "OPS1/")) self sock
  /\ snd (get_fw self sock) = exchanged (wire (lit "OPF/")) self sock
  /\ snd (get_nw self sock) = exchanged (wire (lit "OPS38/")) self sock
  /\ snd (get_time self sock) = exchanged (wire (lit "OPH/")) self sock
  /\ snd (__get_radiator_ids self sock) = exchanged (wire (lit "OPS2/")) self sock
  /\ snd (__get_radiators_per_zone self sock)
     = exchanged (wire (lit "OPS3/")) self sock
  /\ snd (get_temperature rad sock)
     = exchanged (wire (read_command (rad_id rad) 1 "T")) (address (_hub rad)) sock
  /\ snd (__get_fw (_hub rad) (rad_id rad) sock)
     = exchanged (wire (read_command (rad_id rad) 1 "F")) (address (_hub rad)) sock.
Proof.
  rewrite ready_any, get_fw_run, get_nw_run, get_time_run,
    __get_radiator_ids_run, __get_radiators_per_zone_run,
    get_temperature_run, __get_fw_run.
  repeat split.
Qed.

End Queries.

(* ================================================================== *)
(** * Round trips of the client *)
(* ================================================================== *)

Section RoundTrips.
Context {ucd : UnicodeData}.

Lemma temperature_of_fields (c t : Z) (more : list str) :
  forallb clean more = true ->
  temperature_of
    (join comma (lit "OK" :: str_of_int c :: str_of_int t :: more))
  = Ok (Some {| current := c; target := t |}).
Proof.
  intros C.
  assert (F : forallb clean
                (lit "OK" :: str_of_int c :: str_of_int t :: more) = true).
  { cbn [forallb]. now rewrite !clean_str_of_int, C. }
  unfold temperature_of, status. rewrite (split_reply _ _ F). cbn [hd].
  replace (str_eqb (lit "OK") (lit "OK")) with true by reflexivity.
  cbn [getitem nth_error rbind]. rewrite !int_str_of_int. reflexivity.
Qed.

Lemma answer_fields (sock : Socket) (f : str) (fs : list str) (a b : nat) :
  next_outcome sock = reply_of (f :: fs) a b ->
  forallb clean (f :: fs) = true ->
  (List.length (join comma (f :: fs)) + a + b <= 1024)%nat ->
  answer (next_outcome sock) = Ok (join comma (f :: fs)).
Proof. intros -> F L. now apply answer_reply. Qed.

(** X1.  A [?T] reply [OK,c,t] for any two integers, with any further fields
    and any [0x19]/[0x00] padding behind it, within 1024 bytes: whatever the
    integers, [get_temperature] returns them as current and target. *)
Theorem get_temperature_roundtrip
  (rad : Radiator) (c t : Z) (more : list str) (a b : nat) (sock : Socket) :
  let fields := lit "OK" :: str_of_int c :: str_of_int t :: more in
  next_outcome sock = reply_of fields a b ->
  forallb clean more = true ->
  (List.length (join comma fields) + a + b <= 1024)%nat ->
  get_temperature rad sock
  = (Ok (Some {| current := c; target := t |}),
     exchanged (wire (read_command (rad_id rad) 1 "T")) (address (_hub rad)) sock).
Proof.
  intros fields N C L. subst fields.
  assert (F : forallb clean
                (lit "OK" :: str_of_int c :: str_of_int t :: more) = true).
  { cbn [forallb]. now rewrite !clean_str_of_int, C. }
  rewrite get_temperature_run, (answer_fields sock _ _ a b N F L).
  cbn [rbind]. now rewrite temperature_of_fields.
Qed.

(** X2.  A topology reply [OPOK,x,n1,...,nk] for any integers, with any
    padding, within 1024 bytes: [__get_radiator_ids] and
    [__get_radiators_per_zone] return exactly [n1..nk], in order; the field
    after the status token is not read. *)
Theorem topology_roundtrip
  (self : Address) (x : str) (ns : list Z) (a b : nat) (sock : Socket) :
  let fields := lit "OPOK" :: x :: map str_of_int ns in
  next_outcome sock = reply_of fields a b ->
  clean x = true ->
  (List.length (join comma fields) + a + b <= 1024)%nat ->
  __get_radiator_ids self sock
  = (Ok ns, exchanged (wire (lit "OPS2/")) self sock)
  /\ __get_radiators_per_zone self sock
     = (Ok ns, exchanged (wire (lit "OPS3/")) self sock).
Proof.
  intros fields N C L.
  assert (F : forallb clean fields = true).
  { unfold fields. cbn [forallb]. now rewrite C, forallb_clean_ints. }
  subst fields.
  assert (T : rbind (answer (next_outcome sock)) topology_of = Ok ns).
  { rewrite N, (answer_reply _ _ a b F L). cbn [rbind].
    unfold topology_of, status. rewrite (split_reply _ _ F).
    cbn [hd skipn].
    replace (str_eqb (lit "OPOK") (lit "OPOK")) with true by reflexivity.
    apply comprehension_int_roundtrip. }
  rewrite __get_radiator_ids_run, __get_radiators_per_zone_run, T. split; reflexivity.
Qed.

End RoundTrips.


Section QueryOutcomes.
Context {ucd : UnicodeData}.

Variables (self : Address) (sock : Socket) (text : str) (fs : list str).
Hypothesis A : answer (next_outcome sock) = Ok text.
Hypothesis S : split comma text = lit "OPOK" :: fs.

Lemma status_OPOK : str_eqb (status text) (lit "OPOK") = true.
Proof. unfold status. rewrite S. reflexivity. Qed.

(** X4.  An accepted [OPF/] text needs three fields after the status token:
    with fewer [get_fw] raises [IndexError]; with three or more it returns
    the first as firmware, the second and third joined by a slash as device
    id and the third as unit id, and reads nothing of the rest. *)
Theorem get_fw_fields :
  ((List.length fs < 3)%nat -> fst (get_fw self sock) = Raise IndexError)
  /\ (forall fw site unit more,
        fs = fw :: site :: unit :: more ->
        fst (get_fw self sock)
        = Ok (Some {| fw_firmware := fw;
                      fw_device_id := join 47 [site; unit];
                      fw_idu := unit |})).
Proof.
  rewrite get_fw_run, A. cbn [fst rbind]. unfold fw_of.
  rewrite status_OPOK, S. split.
  - intros L. destruct fs as [|a [|b [|c l]]]; cbn in L; try lia; reflexivity.
  - intros fw site unit more ->. reflexivity.
Qed.

(** X5.  An accepted [OPS38/] text needs thirteen fields after the status
    token: with fewer [get_nw] raises [IndexError]; otherwise the address,
    the gateway and the subnet are the fields 2 to 5, 6 to 9 and 10 to 13 of
    the text, each group joined by dots, and field 1 is not read. *)
Theorem get_nw_fields :
  ((List.length fs < 13)%nat -> fst (get_nw self sock) = Raise IndexError)
  /\ ((13 <= List.length fs)%nat ->
      fst (get_nw self sock)
      = Ok (Some {| nw_ip := join 46 (firstn 4 (skipn 1 fs));
                    nw_gateway := join 46 (firstn 4 (skipn 5 fs));
                    nw_subnet := join 46 (firstn 4 (skipn 9 fs)) |})).
Proof.
  rewrite get_nw_run, A. cbn [fst rbind]. unfold nw_of.
  rewrite status_OPOK, S. generalize fs as l. clear.
  intros l. split; intros L.
  - do 13 (destruct l as [|? l]; [reflexivity|]).
    cbn [List.length] in L. lia.
  - do 13 (destruct l as [|? l]; [cbn in L; lia|]). reflexivity.
Qed.

Lemma comprehension_int_fails (l : list str) :
  (exists x, In x l /\ raises (int x) = true) ->
  comprehension int l = Raise ValueError.
Proof.
  induction l as [|y l IH]; intros (x & Hx & R); [destruct Hx|].
  cbn [comprehension]. destruct (int y) as [z|e] eqn:E; cbn [rbind].
  - destruct Hx as [->|Hx]; [rewrite E in R; discriminate|].
    rewrite IH by eauto. reflexivity.
  - now rewrite (int_raises _ _ E).
Qed.

Lemma datetime_new_valid (y mo d h mi s : Z) (t : datetime) :
  datetime_new y mo d h mi s = Ok t ->
  t = mk_datetime y mo d h mi s
  /\ (1 <= y <= 9999 /\ 1 <= mo <= 12 /\ 1 <= d <= days_in_month y mo
      /\ 0 <= h <= 23 /\ 0 <= mi <= 59 /\ 0 <= s <= 59)%Z.
Proof.
  unfold datetime_new. destruct (negb _); [discriminate|].
  destruct (_ && _) eqn:V; [|discriminate]. intros [= <-].
  split; [reflexivity|]. unfold between in V.
  repeat match type of V with (_ && _) = true =>
    let V1 := fresh in apply andb_prop in V as [V V1];
    apply Z.leb_le in V1 end.
  repeat match goal with H : (_ && _) = true |- _ =>
    let V1 := fresh in apply andb_prop in H as [H V1] end.
  repeat match goal with H : (_ <=? _)%Z = true |- _ => apply Z.leb_le in H end.
  lia.
Qed.

(** X6.  An accepted [OPH/] text is converted whole: a field after the
    status token that is no integer, the unused ones and those beyond the
    seventh included, makes [get_time] raise [ValueError]; fewer than seven
    integer fields raise [IndexError]; and a timestamp that is returned
    always names an existing date and time, read off the fields 7, 6, 5, 1,
    2 and 3 of the text. *)
Theorem get_time_errors :
  ((exists x, In x fs /\ raises (int x) = true) ->
   fst (get_time self sock) = Raise ValueError)
  /\ (forall ds, comprehension int fs = Ok ds -> (List.length ds < 7)%nat ->
        fst (get_time self sock) = Raise IndexError)
  /\ (forall t, fst (get_time self sock) = Ok (Some t) ->
        (1 <= month t <= 12 /\ 1 <= day t <= days_in_month (year t) (month t)
         /\ 0 <= hour t <= 23 /\ 0 <= minute t <= 59 /\ 0 <= second t <= 59
         /\ year t <= 9999
         /\ exists ds, comprehension int fs = Ok ds
                       /\ year t = 2000 + nth 6 ds 0
                       /\ month t = nth 5 ds 0 /\ day t = nth 4 ds 0
                       /\ hour t = nth 0 ds 0 /\ minute t = nth 1 ds 0
                       /\ second t = nth 2 ds 0)%Z).
Proof.
  rewrite get_time_run, A. cbn [fst rbind]. unfold time_of.
  rewrite status_OPOK, S. cbn [skipn]. split; [|split].
  - intros H. now rewrite (comprehension_int_fails _ H).
  - intros ds -> L. cbn [rbind].
    do 7 (destruct ds as [|? ds]; [reflexivity|]).
    cbn [List.length] in L. lia.
  - intros t. destruct (comprehension int fs) as [ds|e]; cbn [rbind];
      [|discriminate].
    do 7 (destruct ds as [|? ds]; [discriminate|]).
    cbn [getitem nth_error rbind].
    destruct (datetime_new _ _ _ _ _ _) as [t'|e] eqn:D; cbn [rbind];
      [|discriminate].
    intros [= <-]. apply datetime_new_valid in D as (-> & V).
    cbn [year month day hour minute second].
    repeat split; try lia. eexists. split; [reflexivity|].
    cbn [nth]. repeat split; reflexivity.
Qed.

End QueryOutcomes.

(* ================================================================== *)
(** * Construction and lookup *)
(* ================================================================== *)

Lemma exchanged_all_nil (self : Address) (sock : Socket) :
  exchanged_all [] self sock = sock.
Proof.
  unfold exchanged_all; cbn. rewrite app_nil_r. now destruct sock.
Qed.

Lemma range_empty (n : Z) : (n <= 0)%Z -> range 1 (n + 1) = [].
Proof.
  intros H. unfold range. replace (Z.to_nat (n + 1 - 1)) with 0%nat by lia.
  reflexivity.
Qed.

Lemma index_first (x : Z) (l : list Z) (i : nat) :
  nth_error l i = Some x ->
  (forall j, (j < i)%nat -> nth_error l j <> Some x) ->
  index x l = Ok i.
Proof.
  revert i. induction l as [|y l IH]; intros i Hi Hj.
  - destruct i; discriminate.
  - cbn [index]. destruct i as [|i].
    + injection Hi as ->. now rewrite Z.eqb_refl.
    + destruct (Z.eqb_spec y x) as [->|_].
      * exfalso. apply (Hj 0%nat); [lia | reflexivity].
      * rewrite (IH i Hi); [reflexivity|].
        intros j Hlt. apply (Hj (S j)). lia.
Qed.

Lemma index_bound (x : Z) (l : list Z) (i : nat) :
  index x l = Ok i -> (i < List.length l)%nat.
Proof.
  revert i. induction l as [|y l IH]; intros i; cbn [index]; [discriminate|].
  destruct (y =? x)%Z; [intros [= <-]; cbn; lia|].
  destruct (index x l) as [k|]; [|discriminate].
  intros [= <-]. specialize (IH k eq_refl). cbn. lia.
Qed.

Section Lookup.
Context {ucd : UnicodeData}.

(** X7.  The hub's constructor sends [OPF/], [OPS2/] and [OPS3/], in this
    order and nothing else: all three when it returns a hub, which then
    carries the host and port it was given; only [OPF/] when it raises
    [ConnectionError]; and in every case between one and three of them. *)
Theorem hub_init_exchanges (host : str) (port : Z) (sock : Socket) :
  let self := (host, port) in
  let queries := [wire (lit "OPF/"); wire (lit "OPS2/"); wire (lit "OPS3/")] in
  (forall hub sock',
     HeatappHub.__init__ host port sock = (Ok hub, sock') ->
     sock' = exchanged_all queries self sock
     /\ _host hub = host /\ _port hub = port)
  /\ (fst (HeatappHub.__init__ host port sock) = Raise ConnectionError ->
      snd (HeatappHub.__init__ host port sock)
      = exchanged (wire (lit "OPF/")) self sock)
  /\ (exists k, (1 <= k <= 3)%nat
                /\ snd (HeatappHub.__init__ host port sock)
                   = exchanged_all (firstn k queries) self sock).
Proof.
  intros self queries. rewrite hub_init_run. fold self.
  set (s1 := exchanged (wire (lit "OPF/")) self sock).
  set (s2 := exchanged (wire (lit "OPS2/")) self s1).
  set (s3 := exchanged (wire (lit "OPS3/")) self s2).
  assert (E1 : s1 = exchanged_all (firstn 1 queries) self sock).
  { cbn [firstn queries]. rewrite <- exchanged_all_cons, exchanged_all_nil.
    reflexivity. }
  assert (E2 : s2 = exchanged_all (firstn 2 queries) self sock).
  { cbn [firstn queries]. rewrite <- !exchanged_all_cons, exchanged_all_nil.
    reflexivity. }
  assert (E3 : s3 = exchanged_all queries self sock).
  { unfold queries. rewrite <- !exchanged_all_cons, exchanged_all_nil.
    reflexivity. }
  destruct (rbind (answer (next_outcome sock)) fw_of) as [[fw|]|e].
  - destruct (rbind (answer (next_outcome s1)) topology_of) as [ids|e] eqn:T2.
    + destruct (rbind (answer (next_outcome s2)) topology_of) as [pz|e] eqn:T3.
      * split; [|split].
        -- intros hub sock' [= <- <-]. auto.
        -- discriminate.
        -- exists 3%nat. split; [lia | exact E3].
      * split; [|split].
        -- discriminate.
        -- cbn [fst]. intros [= ->].
           apply topology_query_raises in T3 as [|]; discriminate.
        -- exists 3%nat. split; [lia | exact E3].
    + split; [|split].
      * discriminate.
      * cbn [fst]. intros [= ->].
        apply topology_query_raises in T2 as [|]; discriminate.
      * exists 2%nat. split; [lia | exact E2].
  - split; [|split].
    + discriminate.
    + reflexivity.
    + exists 1%nat. split; [lia | exact E1].
  - split; [|split].
    + discriminate.
    + reflexivity.
    + exists 1%nat. split; [lia | exact E1].
Qed.

(** X8.  A zone whose unit count is zero or negative gets no datagram:
    [set_temperature] returns false, [get_energy_usage] returns [None] and
    [__get_power] returns 0, and the socket is as it was. *)
Theorem no_units_no_datagram
  (rad : Radiator) (target n : Z) (sock : Socket) :
  rad_count (_hub rad) (rad_id rad) = Ok n ->
  (n <= 0)%Z ->
  set_temperature rad target sock = (Ok false, sock)
  /\ get_energy_usage rad sock = (Ok None, sock)
  /\ __get_power (_hub rad) (rad_id rad) sock = (Ok 0%Z, sock).
Proof.
  intros R L.
  unfold set_temperature, get_energy_usage, __get_power.
  rewrite !lift_bind, R, (range_empty n L). repeat split.
Qed.

(** X9.  When the lookup of the zone fails, the three methods that start
    with it raise its error before they send anything: [ValueError] when
    [rad_id] is not among [radiator_ids], [IndexError] when it is but
    [radiators_per_zone] has no entry at its position. *)
Theorem lookup_failure_sends_nothing
  (rad : Radiator) (target : Z) (sock : Socket) (e : exn) :
  rad_count (_hub rad) (rad_id rad) = Raise e ->
  set_temperature rad target sock = (Raise e, sock)
  /\ get_energy_usage rad sock = (Raise e, sock)
  /\ __get_power (_hub rad) (rad_id rad) sock = (Raise e, sock)
  /\ (e = ValueError /\ ~ In (rad_id rad) (radiator_ids (_hub rad))
      \/ e = IndexError /\ In (rad_id rad) (radiator_ids (_hub rad))
         /\ (List.length (radiators_per_zone (_hub rad))
             < List.length (radiator_ids (_hub rad)))%nat).
Proof.
  intros R.
  unfold set_temperature, get_energy_usage, __get_power.
  rewrite !lift_bind, R. repeat split.
  unfold rad_count in R.
  destruct (index (rad_id rad) (radiator_ids (_hub rad))) as [i|e'] eqn:I;
    cbn [rbind] in R.
  - right. pose proof (index_bound _ _ _ I) as B.
    unfold getitem in R.
    destruct (nth_error (radiators_per_zone (_hub rad)) i) eqn:G;
      [discriminate|].
    apply nth_error_None in G. injection R as <-.
    split; [reflexivity|]. split; [eapply index_present; eassumption | lia].
  - left. injection R as <-.
    destruct (in_dec Z.eq_dec (rad_id rad) (radiator_ids (_hub rad))) as [P|P].
    + exfalso. apply In_nth_error in P as (k & K).
      assert (F : exists i, index (rad_id rad) (radiator_ids (_hub rad)) = Ok i).
      { clear I. revert k K.
        induction (radiator_ids (_hub rad)) as [|y l IH]; intros k K;
          [destruct k; discriminate|].
        cbn [index]. destruct (y =? rad_id rad)%Z eqn:Y; [eauto|].
        destruct k as [|k]; [injection K as ->; rewrite Z.eqb_refl in Y;
                             discriminate|].
        destruct (IH k K) as (i & ->). eauto. }
      destruct F as (i & F). congruence.
    + split; [|exact P].
      rewrite (index_absent _ _ P) in I. congruence.
Qed.

(** X10.  The unit count of a zone is the entry of [radiators_per_zone] at
    the first position of [rad_id] in [radiator_ids]; so when
    [radiators_per_zone] is at least as long as [radiator_ids], every member
    of [radiator_ids] has a unit count. *)
Theorem rad_count_first_position (hub : Hub) (id : Z) :
  (forall i,
     nth_error (radiator_ids hub) i = Some id ->
     (forall j, (j < i)%nat -> nth_error (radiator_ids hub) j <> Some id) ->
     rad_count hub id = getitem (radiators_per_zone hub) i)
  /\ ((List.length (radiator_ids hub)
       <= List.length (radiators_per_zone hub))%nat ->
      In id (radiator_ids hub) ->
      exists i n,
        index id (radiator_ids hub) = Ok i
        /\ nth_error (radiators_per_zone hub) i = Some n
        /\ rad_count hub id = Ok n).
Proof.
  split.
  - intros i Hi Hj. unfold rad_count. now rewrite (index_first _ _ _ Hi Hj).
  - intros L P. unfold rad_count.
    destruct (index id (radiator_ids hub)) as [i|e] eqn:I.
    + pose proof (index_bound _ _ _ I) as B.
      destruct (nth_error (radiators_per_zone hub) i) as [n|] eqn:G.
      * exists i, n. cbn [rbind]. unfold getitem. rewrite G. auto.
      * apply nth_error_None in G. lia.
    + exfalso. destruct (in_dec Z.eq_dec id (radiator_ids hub)) as [_|Q];
        [|contradiction].
      revert I. clear L. induction (radiator_ids hub) as [|y l IH];
        [destruct P|].
      cbn [index]. destruct (Z.eqb_spec y id) as [->|Ny]; [discriminate|].
      destruct P as [->|P]; [contradiction|].
      destruct (index id l); [discriminate | auto].
Qed.

End Lookup.

(* ================================================================== *)
(** * Power, and the radiator's constructor *)
(* ================================================================== *)

Section Power.
Context {ucd : UnicodeData}.

Lemma __get_power_loop_run (hub : Hub) (id : Z) (units : list Z) :
  forall (total : Z) (sock : Socket) (texts : list str) (ws : list (option Z)),
    map answer (upcoming (List.length units) (incoming sock)) = map Ok texts ->
    Forall2 unit_power texts ws ->
    __get_power_loop hub id units total sock
    = (Ok (fold_left add_power ws total),
       exchanged_all (map (fun i => wire (read_command id i "UD")) units)
                     (address hub) sock).
Proof.
  induction units as [|i units IH]; intros total sock texts ws H F.
  - destruct texts; [|discriminate]. inversion F; subst.
    rewrite exchanged_all_nil. reflexivity.
  - cbn [List.length] in H. rewrite upcoming_S in H.
    destruct texts as [|t texts]; [discriminate|].
    cbn [map] in H. injection H as Ht Hrest.
    inversion F as [|t' c texts' ws' Hc F']; subst.
    cbn [__get_power_loop].
    rewrite (exchange_bind _ _ (wire (read_command id i "UD")))
      by apply encode_ascii, is_ascii_read_UD.
    rewrite Ht, status_bind.
    cbn [map]. rewrite <- exchanged_all_cons.
    inversion Hc as [t0 f1 rest w Hs H1|t0 Hst]; subst.
    + assert (St : status t = lit "OK") by (unfold status; now rewrite Hs).
      rewrite St.
      replace (str_eqb (lit "OK") (lit "OK")) with true by reflexivity.
      cbv beta iota. rewrite lift_bind, Hs. cbn [getitem nth_error].
      rewrite lift_bind, H1.
      exact (IH _ (exchanged _ _ sock) texts ws' Hrest F').
    + apply str_eqb_neq in Hst. rewrite Hst.
      exact (IH _ (exchanged _ _ sock) texts ws' Hrest F').
Qed.

(** X11.  [__get_power] sends the read [?UD] once to each unit of the zone
    and returns the sum of the first field after [OK] over the units that
    answer [OK]; a unit that times out or answers another status token adds
    nothing and does not stop the loop. *)
Theorem __get_power_sum
  (hub : Hub) (id n : Z) (sock : Socket) (texts : list str)
  (ws : list (option Z)) :
  rad_count hub id = Ok n ->
  map answer (upcoming (Z.to_nat n) (incoming sock)) = map Ok texts ->
  Forall2 unit_power texts ws ->
  __get_power hub id sock
  = (Ok (fold_left add_power ws 0%Z),
     exchanged_all (map (fun i => wire (read_command id i "UD")) (range 1 (n + 1)))
                   (address hub) sock).
Proof.
  intros R H F. unfold __get_power. rewrite lift_bind, R.
  rewrite <- range_length in H.
  exact (__get_power_loop_run hub id _ 0%Z sock texts ws H F).
Qed.

(** X12.  For a zone that is in the topology, the constructor returns a
    radiator whenever the [?F] text and the [?UD] texts are well formed: its
    firmware and serial are the two fields of an [OK] text, or both [None]
    when the [?F] read is answered otherwise or not at all, which does not
    fail the construction; its power is the sum over the units. *)
Theorem radiator_init_fields
  (hub : Hub) (id n : Z) (sock : Socket) (ftext : str)
  (fw : option str * option str) (texts : list str) (ws : list (option Z)) :
  rad_count hub id = Ok n ->
  answer (next_outcome sock) = Ok ftext ->
  unit_fw ftext fw ->
  map answer (upcoming (Z.to_nat n) (tl (incoming sock))) = map Ok texts ->
  Forall2 unit_power texts ws ->
  HeatappRadiator.__init__ hub id sock
  = (Ok {| rad_id := id; _hub := hub;
           HeatappRadiator.firmware := fst fw; serial := snd fw;
           power := fold_left add_power ws 0%Z |},
     exchanged_all
       (wire (read_command id 1 "F")
        :: map (fun i => wire (read_command id i "UD")) (range 1 (n + 1)))
       (address hub) sock).
Proof.
  intros R A W H F. unfold HeatappRadiator.__init__.
  unfold bind at 1. rewrite __get_fw_run, A. cbn [rbind].
  assert (RF : radiator_fw_of ftext = Ok fw).
  { unfold radiator_fw_of. inversion W as [t f1 f2 rest Hs|t Hst]; subst.
    - unfold status. rewrite Hs. reflexivity.
    - apply str_eqb_neq in Hst. now rewrite Hst. }
  rewrite RF. unfold bind.
  rewrite (__get_power_sum hub id n (exchanged _ _ sock) texts ws R H F).
  rewrite exchanged_all_cons. reflexivity.
Qed.

End Power.

(* ================================================================== *)
(** * A hub without unit counts *)
(* ================================================================== *)

Section NoUnitCounts.
Context {ucd : UnicodeData}.

(** X14.  When the constructor of the hub returns a hub although its
    [OPS3/] exchange was rejected, [radiators_per_zone] is empty, the lookup
    of every zone fails, and every construction of a radiator on that hub
    raises, for the zones of [radiator_ids] as for any other. *)
Theorem no_unit_counts_no_radiator
  (host : str) (port : Z) (sock sock1 : Socket) (hub : Hub) :
  HeatappHub.__init__ host port sock = (Ok hub, sock1) ->
  rejected (next_outcome
              (exchanged (wire (lit "OPS2/")) (host, port)
                 (exchanged (wire (lit "OPF/")) (host, port) sock))) ->
  radiators_per_zone hub = []
  /\ forall (id : Z) (sock2 : Socket),
       raises (rad_count hub id) = true
       /\ raises (fst (HeatappRadiator.__init__ hub id sock2)) = true.
Proof.
  intros H (t3 & A3 & R3). rewrite hub_init_run in H.
  destruct (rbind (answer (next_outcome sock)) fw_of) as [[fw|]|];
    try discriminate.
  destruct (rbind (answer (next_outcome _)) topology_of) as [ids|];
    [|discriminate].
  rewrite A3 in H. cbn [rbind] in H.
  rewrite (topology_of_rejected _ R3) in H. injection H as <- _.
  cbn [radiators_per_zone]. split; [reflexivity|]. intros id sock2.
  set (hub := {| _host := host |}).
  assert (C : raises (rad_count hub id) = true).
  { unfold rad_count. destruct (index id (radiator_ids hub)) as [i|];
      [|reflexivity].
    cbn [rbind]. unfold getitem. cbn [radiators_per_zone hub].
    now destruct i. }
  split; [exact C|].
  unfold HeatappRadiator.__init__. unfold bind at 1.
  destruct (__get_fw hub id sock2) as [[fwr|e] s]; [|reflexivity].
  unfold bind, __get_power. rewrite lift_bind.
  destruct (rad_count hub id); [discriminate | reflexivity].
Qed.

End NoUnitCounts.

(* ================================================================== *)
(** * The commands on the wire *)
(* ================================================================== *)

Lemma wire_inj (a b : str) :
  is_ascii a = true -> is_ascii b = true -> wire a = wire b -> a = b.
Proof.
  intros A B H. pose proof (decode_wire a A) as Da.
  rewrite H, (decode_wire b B) in Da. congruence.
Qed.

Lemma no_hash (z : Z) : mem hash (str_of_int z) = false.
Proof. exact (mem_sign_or_digit hash _ eq_refl (str_of_int_chars z)). Qed.

Lemma command_split (c : N) (r i : Z) (x : str) :
  split hash ([c] ++ hash :: str_of_int r ++ hash :: str_of_int i ++ hash :: x)
  = (if (c =? hash)%N then [[]; []] else [[c]])
      ++ str_of_int r :: str_of_int i :: split hash x.
Proof.
  cbn [app split]. rewrite !split_app by apply no_hash.
  destruct (c =? hash)%N; reflexivity.
Qed.

Lemma write_command_parts (r i t : Z) :
  split hash (write_command r i t)
  = [lit "D"; str_of_int r; str_of_int i; lit "0";
     lit "0*T" ++ str_of_int t ++ lit "/"].
Proof.
  change (write_command r i t)
    with ([68%N] ++ hash :: str_of_int r ++ hash :: str_of_int i
            ++ hash :: (lit "0" ++ hash :: lit "0*T" ++ str_of_int t ++ lit "/")).
  rewrite command_split. cbn [N.eqb Pos.eqb hash app].
  rewrite split_app by reflexivity.
  rewrite split_no_sep; [reflexivity|].
  rewrite !mem_app, no_hash. reflexivity.
Qed.

Lemma read_command_parts (r i : Z) (field : string) :
  mem hash (lit field) = false ->
  split hash (read_command r i field)
  = [lit "R"; str_of_int r; str_of_int i; lit "0";
     lit "0*?" ++ lit field ++ lit "/"].
Proof.
  intros F.
  change (read_command r i field)
    with ([82%N] ++ hash :: str_of_int r ++ hash :: str_of_int i
            ++ hash :: (lit "0" ++ hash :: lit "0*?" ++ lit field ++ lit "/")).
  rewrite command_split. cbn [N.eqb Pos.eqb hash app].
  rewrite split_app by reflexivity.
  rewrite split_no_sep; [reflexivity|].
  rewrite !mem_app, F. reflexivity.
Qed.

(** X15.  The datagrams name their zone, unit and value without ambiguity:
    two write commands are the same bytes only for the same zone, unit and
    target, two reads of a field only for the same zone and unit, and a
    write is never the bytes of a read. *)
Theorem commands_unambiguous (r i t r' i' t' : Z) :
  (wire (write_command r i t) = wire (write_command r' i' t') ->
   r = r' /\ i = i' /\ t = t')
  /\ (forall field,
        In field ["T"; "UD"; "F"]%string ->
        wire (read_command r i field) = wire (read_command r' i' field) ->
        r = r' /\ i = i')
  /\ (forall field,
        In field ["T"; "UD"; "F"]%string ->
        wire (write_command r i t) <> wire (read_command r' i' field)).
Proof.
  assert (RA : forall a b field, In field ["T"; "UD"; "F"]%string ->
                 is_ascii (read_command a b field) = true
                 /\ mem hash (lit field) = false).
  { intros a b field [<-|[<-|[<-|[]]]];
      (split; [|reflexivity]);
      auto using is_ascii_read_T, is_ascii_read_UD, is_ascii_read_F. }
  split; [|split].
  - intros H. apply wire_inj in H; try apply is_ascii_write_command.
    pose proof (write_command_parts r i t) as P.
    rewrite H, write_command_parts in P.
    injection P as Hr Hi Ht. apply app_inv_tail in Ht.
    repeat split; apply str_of_int_inj; congruence.
  - intros field F H. destruct (RA r i field F) as (A1 & M).
    destruct (RA r' i' field F) as (A2 & _).
    apply wire_inj in H; auto.
    pose proof (read_command_parts r i field M) as P.
    rewrite H, (read_command_parts _ _ _ M) in P.
    injection P as Hr Hi. split; apply str_of_int_inj; congruence.
  - intros field F H. destruct (RA r' i' field F) as (A2 & M).
    apply wire_inj in H; auto using is_ascii_write_command.
    pose proof (write_command_parts r i t) as P.
    rewrite H, (read_command_parts _ _ _ M) in P. discriminate.
Qed.


Import Integration.

Section IntegrationProperties.
Context {ucd : UnicodeData}.

(** X16.  [update] of the climate entity assigns nothing when the [?T] read
    is answered with another status token than [OK] or not at all; for a
    reply [OK,c,t] it assigns [c] and [t] and the action [HEATING] exactly
    when [t > c], [IDLE] when the target is reached or below. *)
Theorem climate_update (rad : Radiator) (sock : Socket) :
  let sock' :=
    exchanged (wire (read_command (rad_id rad) 1 "T")) (address (_hub rad)) sock in
  (forall text,
     answer (next_outcome sock) = Ok text ->
     status text <> lit "OK" ->
     update rad sock = (Ok None, sock'))
  /\ (forall c t more a b,
        let fields := lit "OK" :: str_of_int c :: str_of_int t :: more in
        next_outcome sock = reply_of fields a b ->
        forallb clean more = true ->
        (List.length (join comma fields) + a + b <= 1024)%nat ->
        update rad sock
        = (Ok (Some {| _attr_current_temperature := c;
                       _attr_target_temperature := t;
                       _attr_hvac_action :=
                         if (t >? c)%Z then HEATING else IDLE |}), sock')).
Proof.
  intros sock'. unfold update, bind. rewrite get_temperature_run. split.
  - intros text A R. rewrite A. cbn [rbind]. unfold temperature_of.
    apply str_eqb_neq in R. now rewrite R.
  - intros c t more a b N C L.
    assert (F : forallb clean
                  (lit "OK" :: str_of_int c :: str_of_int t :: more) = true).
    { cbn [forallb]. now rewrite !clean_str_of_int, C. }
    rewrite (answer_fields sock _ _ a b N F L). cbn [rbind].
    now rewrite temperature_of_fields.
Qed.




(** X18.  On one hub the unique ids of two entities are the same text
    exactly when their radiators have the same [rad_id]. *)
Theorem unique_id_injective (hub : Hub) (r r' : Radiator) :
  unique_id hub r = unique_id hub r' <-> rad_id r = rad_id r'.
Proof.
  unfold unique_id. split.
  - intros H. apply app_inv_head in H. apply app_inv_head in H.
    now apply str_of_int_inj.
  - now intros ->.
Qed.

Lemma hub_init_rejected_iff (host : str) (port : Z) (sock : Socket) :
  fst (HeatappHub.__init__ host port sock) = Raise ConnectionError
  <-> rejected (next_outcome sock).
Proof.
  rewrite hub_init_run.
  set (s1 := exchanged (wire (lit "OPF/")) (host, port) sock).
  set (s2 := exchanged (wire (lit "OPS2/")) (host, port) s1).
  split.
  - destruct (answer (next_outcome sock)) as [t1|e1] eqn:A1; cbn [rbind].
    + destruct (fw_of t1) as [[fw|]|e] eqn:F1.
      * destruct (rbind (answer (next_outcome s1)) topology_of)
          as [ids|e] eqn:T2.
        -- destruct (rbind (answer (next_outcome s2)) topology_of)
             as [pz|e] eqn:T3; cbn [fst]; [discriminate|].
           intros [= ->].
           apply topology_query_raises in T3 as [|]; discriminate.
        -- cbn [fst]. intros [= ->].
           apply topology_query_raises in T2 as [|]; discriminate.
      * intros _. exists t1. split; [exact A1|]. now apply fw_of_none.
      * cbn [fst]. intros [= ->]. apply fw_of_raises in F1. discriminate.
    + cbn [fst]. intros [= ->]. apply answer_raises in A1. discriminate.
  - intros (text & -> & R). cbn [rbind].
    apply fw_of_none in R. rewrite R. reflexivity.
Qed.

Lemma hub_init_address (host : str) (port : Z) (sock sock' : Socket) (hub : Hub) :
  HeatappHub.__init__ host port sock = (Ok hub, sock') ->
  address hub = (host, port)
  /\ sock' = exchanged_all
               [wire (lit "OPF/"); wire (lit "OPS2/"); wire (lit "OPS3/")]
               (host, port) sock.
Proof.
  rewrite hub_init_run.
  destruct (rbind (answer (next_outcome sock)) fw_of) as [[fw|]|];
    try discriminate.
  destruct (rbind (answer (next_outcome _)) topology_of); [|discriminate].
  destruct (rbind (answer (next_outcome _)) topology_of); [|discriminate].
  intros [= <- <-]. split; [reflexivity|].
  rewrite <- !exchanged_all_cons, exchanged_all_nil. reflexivity.
Qed.

Lemma device_model_total (hub : Hub) : exists m, device_model hub = Ok m.
Proof.
  unfold device_model.
  destruct (split_cons slash (device_id hub)) as (f & fs & ->).
  exists f. reflexivity.
Qed.

End IntegrationProperties.

Section SetupEntry.
Context {ucd : UnicodeData}.
Variable async_forward_entry_setups : Hub -> Socket -> option setup_exn * Socket.
Variable async_get_or_create : DeviceEntry -> Socket -> option setup_exn * Socket.

(** X19.  Setting up the entry raises [ConfigEntryNotReady] after the single
    datagram [OPF/] when the handshake is rejected, and after [OPF/],
    [OPS2/], [OPS3/] and [OPS1/] when the hub is built and its readiness
    exchange is rejected, in both cases before any call into the framework.
    When the hub is built and ready, the platforms are forwarded to with
    that hub once exactly these four datagrams have been sent; what the
    setup returns or raises, and the datagrams that follow, are then those
    of the framework: the device is registered only when the forwarding
    returns, with the part of the device id before its first slash as model,
    and the setup returns only when the registration returns.  Unless one of
    the two framework calls raises [ConfigEntryNotReady] itself, the setup
    raises it in just the two cases above. *)
Theorem setup_entry_not_ready (host : str) (port : Z) (sock : Socket) :
  let self := (host, port) in
  let setup :=
    async_setup_entry async_forward_entry_setups async_get_or_create host port in
  let four :=
    exchanged_all [wire (lit "OPF/"); wire (lit "OPS2/"); wire (lit "OPS3/");
                   wire (lit "OPS1/")] self sock in
  (rejected (next_outcome sock) ->
   setup sock
   = (inl ConfigEntryNotReady, exchanged (wire (lit "OPF/")) self sock))
  /\ (forall hub sock1,
        HeatappHub.__init__ host port sock = (Ok hub, sock1) ->
        address hub = self
        /\ (rejected (next_outcome sock1) ->
            setup sock = (inl ConfigEntryNotReady, four))
        /\ (forall text,
              answer (next_outcome sock1) = Ok text ->
              status text = lit "OPOK" ->
              exists m,
                device_model hub = Ok m
                /\ setup sock
                   = match async_forward_entry_setups hub four with
                     | (Some e, sock3) => (inl e, sock3)
                     | (None, sock3) =>
                         match async_get_or_create
                                 {| identifiers := device_id hub;
                                    manufacturer := lit "heatapp";
                                    name := lit "heatapp";
                                    model := m;
                                    sw_version := HeatappHub.firmware hub;
                                    serial_number := device_id hub |} sock3 with
                         | (Some e, sock4) => (inl e, sock4)
                         | (None, sock4) => (inr hub, sock4)
                         end
                     end))
  /\ ((forall hub s, fst (async_forward_entry_setups hub s)
                     <> Some ConfigEntryNotReady) ->
      (forall d s, fst (async_get_or_create d s) <> Some ConfigEntryNotReady) ->
      (fst (setup sock) = inl ConfigEntryNotReady
       <-> rejected (next_outcome sock)
           \/ exists hub sock1,
                HeatappHub.__init__ host port sock = (Ok hub, sock1)
                /\ rejected (next_outcome sock1))).
Proof.
  intros self setup four. subst setup.
  pose proof (hub_init_rejected_iff host port sock) as C.
  unfold async_setup_entry.
  destruct (HeatappHub.__init__ host port sock) as [[hub|e] s1] eqn:I.
  - destruct (hub_init_address _ _ _ _ _ I) as (Ha & Hs).
    rewrite ready_any, Ha. fold self. cbn [fst] in C.
    assert (NR : ~ rejected (next_outcome sock))
      by (intros R; apply C in R; discriminate).
    assert (S4 : exchanged (wire (lit "OPS1/")) self s1 = four).
    { rewrite Hs. fold self. unfold four.
      rewrite <- !exchanged_all_cons, !exchanged_all_nil. reflexivity. }
    rewrite S4.
    destruct (device_model_total hub) as (m & Hm). rewrite Hm.
    split; [|split].
    + intros R. contradiction.
    + intros hub' sock1 [= <- <-]. split; [exact Ha|]. split.
      * intros (t & A & R). rewrite A. cbn [rbind].
        apply str_eqb_neq in R. now rewrite R.
      * intros text A R. exists m. split; [exact Hm|].
        rewrite A. cbn [rbind]. rewrite R. reflexivity.
    + intros F G. split.
      * intros H. right. exists hub, s1. split; [reflexivity|].
        destruct (answer (next_outcome s1)) as [t|] eqn:A; cbn [rbind] in H;
          [|discriminate].
        destruct (str_eqb (status t) (lit "OPOK")) eqn:E.
        -- exfalso. specialize (F hub four).
           destruct (async_forward_entry_setups hub four) as [[e|] s3].
           ++ cbn [fst] in *. congruence.
           ++ specialize (G {| identifiers := device_id hub;
                               manufacturer := lit "heatapp";
                               name := lit "heatapp";
                               model := m;
                               sw_version := HeatappHub.firmware hub;
                               serial_number := device_id hub |} s3).
              destruct (async_get_or_create _ s3) as [[e|] s4];
                cbn [fst] in *; congruence.
        -- exists t. split; [exact A | now apply str_eqb_neq].
      * intros [R|(hub' & s' & [= <- <-] & (t & A & R))]; [contradiction|].
        rewrite A. cbn [rbind]. apply str_eqb_neq in R. now rewrite R.
  - cbn [fst] in C.
    assert (P : rejected (next_outcome sock) ->
                e = ConnectionError
                /\ s1 = exchanged (wire (lit "OPF/")) self sock).
    { intros R. apply C in R. injection R as ->. split; [reflexivity|].
      pose proof (hub_init_run host port sock) as Run. cbn zeta in Run.
      rewrite I in Run. fold self in Run.
      set (q1 := exchanged (wire (lit "OPF/")) self sock) in *.
      set (q2 := exchanged (wire (lit "OPS2/")) self q1) in *.
      destruct (rbind (answer (next_outcome sock)) fw_of) as [[fw|]|e'].
      * exfalso.
        destruct (rbind (answer (next_outcome q1)) topology_of) eqn:T2.
        -- destruct (rbind (answer (next_outcome q2)) topology_of) eqn:T3;
             [discriminate|].
           injection Run as Run _. subst.
           apply topology_query_raises in T3 as [|]; discriminate.
        -- injection Run as Run _. subst.
           apply topology_query_raises in T2 as [|]; discriminate.
      * now injection Run.
      * now injection Run. }
    split; [|split].
    + intros R. destruct (P R) as (-> & ->). reflexivity.
    + intros hub sock1 H. discriminate.
    + intros _ _. split.
      * destruct e; try discriminate. intros _. left. now apply C.
      * intros [R|(hub' & s' & H & _)]; [|discriminate].
        destruct (P R) as (-> & _). reflexivity.
Qed.

End SetupEntry.

Section HubIdentity.
Context {ucd : UnicodeData}.

(** X20.  A hub that is built carries the fields of the [OPF/] text: the
    first after the status token as firmware, the second and third joined by
    a slash as device id, the third as unit id; the device model the setup
    registers is the part of the device id before its first slash, which is
    the second field when that has no slash in it. *)
Theorem hub_identity
  (host : str) (port : Z) (sock sock' : Socket) (hub : Hub) (text : str)
  (fw site unit : str) (more : list str) :
  HeatappHub.__init__ host port sock = (Ok hub, sock') ->
  answer (next_outcome sock) = Ok text ->
  split comma text = lit "OPOK" :: fw :: site :: unit :: more ->
  HeatappHub.firmware hub = fw
  /\ device_id hub = join slash [site; unit]
  /\ idu hub = unit
  /\ (mem slash site = false -> device_model hub = Ok site)
  /\ (exists model rest, device_model hub = Ok model
                         /\ site = model ++ rest).
Proof.
  intros I A S. rewrite hub_init_run, A in I. cbn [rbind] in I.
  assert (F : fw_of text
              = Ok (Some {| fw_firmware := fw;
                            fw_device_id := join slash [site; unit];
                            fw_idu := unit |})).
  { unfold fw_of, status. rewrite S. reflexivity. }
  rewrite F in I.
  destruct (rbind (answer (next_outcome _)) topology_of); [|discriminate].
  destruct (rbind (answer (next_outcome _)) topology_of); [|discriminate].
  injection I as <- _. cbn [HeatappHub.firmware device_id idu fw_firmware
                            fw_device_id fw_idu].
  repeat split.
  - intros M. unfold device_model. cbn [device_id fw_device_id join].
    rewrite (split_app _ _ _ M). reflexivity.
  - unfold device_model. cbn [device_id fw_device_id join].
    clear. induction site as [|c s IH].
    + exists [], []. cbn [app split]. rewrite N.eqb_refl. split; reflexivity.
    + cbn [app split]. destruct (c =? slash)%N.
      * exists [], (c :: s). split; reflexivity.
      * destruct IH as (m & rest & Hm & Hs).
        unfold getitem in Hm.
        destruct (split slash (s ++ slash :: unit)) as [|f l] eqn:E;
          [discriminate|].
        cbn [nth_error] in Hm. injection Hm as ->.
        exists (c :: m), rest. split; [reflexivity | now rewrite Hs].
Qed.

End HubIdentity.

Section Ready.
Context {ucd : UnicodeData}.

(** X21.  [ready] returns true exactly when the status token of the [OPS1/]
    text is [OPOK], whatever follows it, and false for every other text,
    the timeout sentinel included; it raises for no text at all. *)
Theorem ready_status (self : Address) (sock : Socket) (text : str) :
  answer (next_outcome sock) = Ok text ->
  exists b,
    ready self sock = (Ok b, exchanged (wire (lit "OPS1/")) self sock)
    /\ (b = true <-> status text = lit "OPOK")
    /\ (b = false <-> status text <> lit "OPOK").
Proof.
  intros A. exists (str_eqb (status text) (lit "OPOK")).
  rewrite ready_any, A. cbn [rbind].
  split; [reflexivity|]. split; [apply str_eqb_eq | apply str_eqb_neq].
Qed.

End Ready.

(* ================================================================== *)
(** * The further statements at concrete inputs *)
(* ================================================================== *)

(** The three fields [OK,21,23] behind one [0x19] and two [0x00]. *)
Lemma get_temperature_roundtrip_witness :
  get_temperature (ucd := ascii_only) zone7
    (fresh [reply_of [lit "OK"; lit "21"; lit "23"] 1 2])
  = (Ok (Some {| current := 21; target := 23 |}),
     {| incoming := [];
        sent := [(wire (lit "R#7#1#0#0*?T/"), hub_address)] |}).
Proof.
  exact (get_temperature_roundtrip (ucd := ascii_only) zone7 21 23 [] 1 2
           (fresh [reply_of [lit "OK"; lit "21"; lit "23"] 1 2])
           eq_refl eq_refl ltac:(apply Nat.leb_le; reflexivity)).
Defined.

Lemma topology_roundtrip_witness :
  fst (__get_radiator_ids (ucd := ascii_only) hub_address
         (fresh [reply_of [lit "OPOK"; lit "0"; lit "5"; lit "-7"] 0 3]))
  = Ok [5; -7]%Z.
Proof.
  rewrite (proj1 (topology_roundtrip (ucd := ascii_only) hub_address (lit "0")
                    [5; -7]%Z 0 3
                    (fresh [reply_of [lit "OPOK"; lit "0"; lit "5"; lit "-7"] 0 3])
                    eq_refl eq_refl ltac:(apply Nat.leb_le; reflexivity))).
  reflexivity.
Defined.

Lemma get_fw_fields_witness :
  fst (get_fw hub_address (fresh [datagram "OPOK,1.2,site,idu,more"]))
  = Ok (Some {| fw_firmware := lit "1.2";
                fw_device_id := lit "site/idu";
                fw_idu := lit "idu" |}).
Proof.
  exact (proj2 (get_fw_fields hub_address
                  (fresh [datagram "OPOK,1.2,site,idu,more"])
                  (lit "OPOK,1.2,site,idu,more")
                  [lit "1.2"; lit "site"; lit "idu"; lit "more"]
                  eq_refl eq_refl)
           (lit "1.2") (lit "site") (lit "idu") [lit "more"] eq_refl).
Defined.

Lemma get_nw_fields_witness :
  fst (get_nw hub_address
         (fresh [datagram "OPOK,0,192,168,1,20,192,168,1,1,255,255,255,0"]))
  = Ok (Some {| nw_ip := lit "192.168.1.20";
                nw_gateway := lit "192.168.1.1";
                nw_subnet := lit "255.255.255.0" |}).
Proof.
  exact (proj2 (get_nw_fields hub_address
                  (fresh [datagram "OPOK,0,192,168,1,20,192,168,1,1,255,255,255,0"])
                  (lit "OPOK,0,192,168,1,20,192,168,1,1,255,255,255,0")
                  (map lit ["0"; "192"; "168"; "1"; "20"; "192"; "168"; "1"; "1";
                            "255"; "255"; "255"; "0"]%string)
                  eq_refl eq_refl)
           ltac:(apply Nat.leb_le; reflexivity)).
Defined.

(** Six integers are one too few; month 13 does not exist. *)
Lemma get_time_errors_witness :
  fst (get_time (ucd := ascii_only) hub_address
         (fresh [datagram "OPOK,12,30,45,5,6,7"]))
  = Raise IndexError.
Proof.
  exact (proj1 (proj2 (get_time_errors (ucd := ascii_only) hub_address
                         (fresh [datagram "OPOK,12,30,45,5,6,7"])
                         (lit "OPOK,12,30,45,5,6,7")
                         (map lit ["12"; "30"; "45"; "5"; "6"; "7"]%string)
                         eq_refl eq_refl))
           [12; 30; 45; 5; 6; 7]%Z eq_refl ltac:(apply Nat.leb_le; reflexivity)).
Defined.

(** A hub whose zone 5 has no unit. *)
Lemma no_units_no_datagram_witness :
  set_temperature empty_zone 21 (fresh [datagram "OK"])
  = (Ok false, fresh [datagram "OK"]).
Proof.
  exact (proj1 (no_units_no_datagram (ucd := ascii_only) empty_zone 21 0
                  (fresh [datagram "OK"]) eq_refl ltac:(lia))).
Defined.

(** Zone 9 is not in the topology of [zone_hub]. *)
Lemma lookup_failure_sends_nothing_witness :
  set_temperature zone9 21 (fresh [datagram "OK"])
  = (Raise ValueError, fresh [datagram "OK"]).
Proof.
  exact (proj1 (lookup_failure_sends_nothing (ucd := ascii_only) zone9
                  21 (fresh [datagram "OK"]) ValueError eq_refl)).
Defined.

(** Unit 1 rated 1000, unit 2 silent. *)
Lemma __get_power_sum_witness :
  __get_power (ucd := ascii_only) zone_hub 7
    (fresh [datagram "OK,1000,5"; TimedOut])
  = (Ok 1000%Z,
     {| incoming := [];
        sent := [(wire (lit "R#7#1#0#0*?UD/"), hub_address);
                 (wire (lit "R#7#2#0#0*?UD/"), hub_address)] |}).
Proof.
  exact (__get_power_sum (ucd := ascii_only) zone_hub 7 2
           (fresh [datagram "OK,1000,5"; TimedOut])
           [lit "OK,1000,5"; lit "TIMEOUT"] [Some 1000%Z; None]
           eq_refl eq_refl
           (Forall2_cons _ _
              (power_ok (lit "OK,1000,5") (lit "1000") [lit "5"] 1000
                 eq_refl eq_refl)
              (Forall2_cons _ _
                 (power_failed (ucd := ascii_only) (lit "TIMEOUT")
                    timeout_not_OK)
                 (Forall2_nil _)))).
Defined.

(** The [?F] read of zone 7 times out; the radiator is built all the same. *)
Lemma radiator_init_fields_witness :
  fst (HeatappRadiator.__init__ (ucd := ascii_only) zone_hub 7
         (fresh [TimedOut; datagram "OK,1000,5"; datagram "OK,500,5"]))
  = Ok {| rad_id := 7; _hub := zone_hub;
          HeatappRadiator.firmware := None; serial := None; power := 1500 |}.
Proof.
  rewrite (radiator_init_fields (ucd := ascii_only) zone_hub 7 2
             (fresh [TimedOut; datagram "OK,1000,5"; datagram "OK,500,5"])
             (lit "TIMEOUT") (None, None)
             [lit "OK,1000,5"; lit "OK,500,5"] [Some 1000%Z; Some 500%Z]
             eq_refl eq_refl (fw_failed (lit "TIMEOUT") timeout_not_OK) eq_refl
             (Forall2_cons _ _
                (power_ok (lit "OK,1000,5") (lit "1000") [lit "5"] 1000
                   eq_refl eq_refl)
                (Forall2_cons _ _
                   (power_ok (lit "OK,500,5") (lit "500") [lit "5"] 500
                      eq_refl eq_refl)
                   (Forall2_nil _)))).
  reflexivity.
Defined.

(** The hub answers [OPF/] and [OPS2/] and is silent on [OPS3/]. *)
Lemma no_unit_counts_no_radiator_witness :
  exists hub sock1,
    HeatappHub.__init__ (ucd := ascii_only) (lit "192.168.1.20") 3000
      (fresh [datagram "OPOK,1.2,site,idu"; datagram "OPOK,0,5,7"])
    = (Ok hub, sock1)
    /\ radiator_ids hub = [5; 7]%Z
    /\ radiators_per_zone hub = []
    /\ raises (fst (HeatappRadiator.__init__ (ucd := ascii_only) hub 5
                      (fresh [datagram "OK,2.0,SN5"; datagram "OK,1000,5"])))
       = true.
Proof.
  eexists. eexists. split; [vm_compute; reflexivity|]. split; [reflexivity|].
  pose proof (no_unit_counts_no_radiator (ucd := ascii_only)
                (lit "192.168.1.20") 3000
                (fresh [datagram "OPOK,1.2,site,idu"; datagram "OPOK,0,5,7"])
                _ _ eq_refl rejected_timeout) as (P & Q).
  split; [exact P|].
  exact (proj2 (Q 5%Z (fresh [datagram "OK,2.0,SN5"; datagram "OK,1000,5"]))).
Defined.

Lemma hub_identity_witness :
  exists hub sock',
    HeatappHub.__init__ (ucd := ascii_only) (lit "192.168.1.20") 3000
      (fresh [datagram "OPOK,1.2,site,idu"; TimedOut; TimedOut])
    = (Ok hub, sock')
    /\ device_id hub = lit "site/idu"
    /\ Integration.device_model hub = Ok (lit "site").
Proof.
  eexists. eexists. split; [vm_compute; reflexivity|].
  destruct (hub_identity (ucd := ascii_only) (lit "192.168.1.20") 3000
              (fresh [datagram "OPOK,1.2,site,idu"; TimedOut; TimedOut])
              _ _ (lit "OPOK,1.2,site,idu") (lit "1.2") (lit "site") (lit "idu")
              [] eq_refl eq_refl eq_refl)
    as (_ & D & _ & M & _).
  split; [exact D | exact (M eq_refl)].
Defined.

Lemma ready_status_witness :
  fst (ready hub_address (fresh [datagram "OPOK,1"])) = Ok true.
Proof.
  destruct (ready_status hub_address (fresh [datagram "OPOK,1"])
              (lit "OPOK,1") eq_refl) as (b & R & T & _).
  rewrite R. cbn [fst]. f_equal. now apply T.
Defined.

Section TwoReadings.
Context {ucd : UnicodeData}.

(** X22.  The two readers of [?UD] ask for different things of the same
    reply: in a zone of one unit a text [OK,w] with a single integer field
    gives [__get_power] the power [w], and makes [get_energy_usage], which
    reads a second field, raise [IndexError] (for a [w] below [2^53]; a
    [w] too large for a float raises [OverflowError] before that). *)
Theorem power_needs_one_field_energy_two
  (rad : Radiator) (sock : Socket) (text f1 : str) (w : Z) :
  rad_count (_hub rad) (rad_id rad) = Ok 1%Z ->
  answer (next_outcome sock) = Ok text ->
  split comma text = [lit "OK"; f1] ->
  int f1 = Ok w ->
  (Z.abs w < 2 ^ 53)%Z ->
  __get_power (_hub rad) (rad_id rad) sock
  = (Ok w, exchanged (wire (read_command (rad_id rad) 1 "UD"))
             (address (_hub rad)) sock)
  /\ get_energy_usage rad sock
     = (Raise IndexError,
        exchanged (wire (read_command (rad_id rad) 1 "UD"))
          (address (_hub rad)) sock).
Proof.
  intros R A S I B.
  assert (D : exists q, int_truediv w 10000 = Ok q).
  { unfold int_truediv. cbn [Z.eqb]. destruct (w =? 0)%Z; [eauto|].
    apply Z.ltb_lt in B. rewrite B. cbn [andb Z.abs Z.ltb Z.compare].
    eexists. reflexivity. }
  destruct D as (q & D).
  assert (St : str_eqb (status text) (lit "OK") = true)
    by (unfold status; rewrite S; reflexivity).
  unfold __get_power, get_energy_usage. rewrite !lift_bind, R.
  change (range 1 (1 + 1)) with [1%Z]. split.
  - cbn [__get_power_loop].
    rewrite (exchange_bind _ _ (wire (read_command (rad_id rad) 1 "UD")))
      by apply encode_ascii, is_ascii_read_UD.
    rewrite A, status_bind, St, lift_bind, S. cbn [getitem nth_error].
    rewrite lift_bind, I. reflexivity.
  - unfold bind at 1. cbn [get_energy_usage_loop].
    rewrite (exchange_bind _ _ (wire (read_command (rad_id rad) 1 "UD")))
      by apply encode_ascii, is_ascii_read_UD.
    rewrite A, status_bind, St, lift_bind. unfold unit_energy. rewrite S.
    cbn [getitem nth_error rbind]. rewrite I. cbn [rbind].
    rewrite D. reflexivity.
Qed.

End TwoReadings.

(** One unit, and a reply that names its power only. *)
Lemma power_needs_one_field_energy_two_witness :
  fst (__get_power (ucd := ascii_only) zone_hub 5 (fresh [datagram "OK,1000"]))
  = Ok 1000%Z
  /\ fst (get_energy_usage (ucd := ascii_only)
            {| rad_id := 5; _hub := zone_hub;
               HeatappRadiator.firmware := None; serial := None; power := 0 |}
            (fresh [datagram "OK,1000"]))
     = Raise IndexError.
Proof.
  destruct (power_needs_one_field_energy_two (ucd := ascii_only)
              {| rad_id := 5; _hub := zone_hub;
                 HeatappRadiator.firmware := None; serial := None; power := 0 |}
              (fresh [datagram "OK,1000"]) (lit "OK,1000") (lit "1000") 1000
              eq_refl eq_refl eq_refl eq_refl ltac:(lia)) as (P & E).
  cbn [_hub rad_id] in P. rewrite P, E. split; reflexivity.
Defined.
